(** * finance-track: the investment form and the private route

    A shallow embedding of [src/components/InvestmentForm.tsx] and
    [src/components/auth/PrivateRoute.tsx].

    - JavaScript numbers are IEEE 754 binary64 values, modelled by the
      Standard Library's [spec_float] at precision 53 and maximal
      exponent 1024, with the operators the form uses ([/], unary [-],
      [<=], [isNaN]).
    - The text of a form field is a [string]; a character stands for the
      code unit of the same number (0..255).
    - [parseFloat] follows ECMA-262 (sec. 19.2.4 and 7.1.4.1): leading
      white space is dropped, the longest prefix that is a
      [StrDecimalLiteral] is read, and its mathematical value is rounded
      to the nearest double, ties to even.
    - The event handlers run in a small monad over the pending React
      state and a trace of the calls made to the collaborators
      ([toast], [console], [onAddInvestment], [getEthPrice]); a
      computation completes normally or abruptly (a JavaScript throw),
      and the state written before a throw is kept.
    - Of the collaborators, [toast] may throw; [preventDefault],
      [console.error] and [onAddInvestment] return normally, and
      [getEthPrice] hands back a promise that resolves or rejects.
    - The handlers are functions of the state cells: the constraints
      that the markup puts on the inputs ([type], [min], [step],
      [required]) are the browser's and are not assumed.
    - The effect that fills the form when [editingInvestment] changes
      is modelled over two functions of the language that it only
      calls: [Number.prototype.toString] and the conversion of a date
      text to its ISO form. *)

From Stdlib Require Import ZArith Bool List String Ascii Lia.
From Stdlib Require Import Floats.SpecFloat.
Import ListNotations.

Local Open Scope string_scope.
Local Open Scope Z_scope.

(* ===================================================================== *)
(** ** JavaScript numbers *)
(* ===================================================================== *)

Definition number : Type := spec_float.

Module Number.

Definition prec : Z := 53.
Definition emax : Z := 1024.

Definition NaN : number := S754_nan.
Definition Infinity : number := S754_infinity false.
Definition zero : number := S754_zero false.

(** [x / y] *)
Definition div (x y : number) : number := SFdiv prec emax x y.
(** [-x] *)
Definition neg (x : number) : number := SFopp x.
(** [x <= y], [x < y], [x > y], [x == y] on numbers *)
Definition leb (x y : number) : bool := SFleb x y.
Definition ltb (x y : number) : bool := SFltb x y.
Definition gtb (x y : number) : bool := SFltb y x.
Definition eqb (x y : number) : bool := SFeqb x y.

(** [Math.sign]: NaN for NaN, the zero itself for a zero, otherwise
    plus or minus one. *)
Definition one : number := binary_round prec emax false 1 0.
Definition sign (x : number) : number :=
  match x with
  | S754_nan => S754_nan
  | S754_zero s => S754_zero s
  | S754_infinity s | S754_finite s _ _ => if s then neg one else one
  end.

(** The double nearest to [m * 10^e] for [m > 0] (ties to even,
    overflow to Infinity): the "Number value for" a mathematical
    value. *)
Definition of_decimal (m : positive) (e : Z) : number :=
  match e with
  | Zneg k =>
      let '(q, e', l) :=
        SFdiv_core_binary prec emax (Zpos m) 0 (Zpos (Pos.pow 10 k)) 0 in
      binary_round_aux prec emax false q e' l
  | _ => binary_round prec emax false (m * Z.to_pos (10 ^ e))%positive 0
  end.

(** [Math.abs(x)] *)
Definition abs (x : number) : number := SFabs x.

(** [x > 0] and [x < 0] as propositions. *)
Definition is_positive (x : number) : Prop := gtb x zero = true.
Definition is_negative (x : number) : Prop := ltb x zero = true.

(** A number that is not NaN and carries the sign bit [s]. *)
Inductive signed_as (s : bool) : number -> Prop :=
| signed_zero : signed_as s (S754_zero s)
| signed_finite m e : signed_as s (S754_finite s m e)
| signed_infinity : signed_as s (S754_infinity s).

End Number.

(* ===================================================================== *)
(** ** parseFloat *)
(* ===================================================================== *)

Module Parse.

(** [StrWhiteSpaceChar]: WhiteSpace and LineTerminator code points.
    Below 256 these are TAB, LF, VT, FF, CR, SP and NBSP. *)
Definition isStrWhiteSpaceChar (c : ascii) : bool :=
  let n := N_of_ascii c in
  (((9 <=? n) && (n <=? 13)) || (n =? 32) || (n =? 160))%N.

(** [TrimString(s, start)] *)
Fixpoint trimStart (s : string) : string :=
  match s with
  | String c s' => if isStrWhiteSpaceChar c then trimStart s' else s
  | EmptyString => EmptyString
  end.

Definition digit (c : ascii) : option Z :=
  let n := N_of_ascii c in
  if ((48 <=? n) && (n <=? 57))%N then Some (Z.of_N n - 48) else None.

(** The longest run of [DecimalDigit]s at the head of [s], and what
    follows it. *)
Fixpoint decimalDigits (s : string) : list Z * string :=
  match s with
  | String c s' =>
      match digit c with
      | Some d => let (ds, r) := decimalDigits s' in (d :: ds, r)
      | None => ([], s)
      end
  | EmptyString => ([], EmptyString)
  end.

(** MV of [DecimalDigits] *)
Definition digitsValue (ds : list Z) : Z :=
  fold_left (fun acc d => 10 * acc + d) ds 0.

(** [ExponentPart], when one is present at the head of [s]: an
    exponent indicator, an optional sign and at least one digit.
    Otherwise the literal ends before [s] and the exponent is 0. *)
Definition exponentPart (s : string) : Z :=
  match s with
  | String c s' =>
      if (Ascii.eqb c "e" || Ascii.eqb c "E")%bool then
        match s' with
        | String "+" s'' =>
            match decimalDigits s'' with
            | ([], _) => 0
            | (ds, _) => digitsValue ds
            end
        | String "-" s'' =>
            match decimalDigits s'' with
            | ([], _) => 0
            | (ds, _) => - digitsValue ds
            end
        | _ =>
            match decimalDigits s' with
            | ([], _) => 0
            | (ds, _) => digitsValue ds
            end
        end
      else 0
  | EmptyString => 0
  end.

(** The mathematical value of the longest prefix of [s] that is a
    [StrUnsignedDecimalLiteral], as [m * 10^e]; [None] when no prefix
    is one. *)
Inductive mv : Type :=
| MV_infinity
| MV_decimal (m : Z) (e : Z).

Definition strUnsignedDecimalLiteral (s : string) : option mv :=
  if prefix "Infinity" s then Some MV_infinity
  else
    let (ip, r1) := decimalDigits s in
    let (fp, r2) :=
      match r1 with
      | String "." r => decimalDigits r
      | _ => ([], r1)
      end in
    match ip, fp with
    | [], [] => None
    | _, _ =>
        Some (MV_decimal (digitsValue (ip ++ fp))
                         (exponentPart r2 - Z.of_nat (List.length fp)))
    end.

(** [RoundMVResult] *)
Definition roundMV (v : mv) : number :=
  match v with
  | MV_infinity => Number.Infinity
  | MV_decimal (Zpos m) e => Number.of_decimal m e
  | MV_decimal _ _ => Number.zero
  end.

(** [StrDecimalLiteral]: an optional sign, then the unsigned literal. *)
Definition strDecimalLiteral (s : string) : option number :=
  match s with
  | String "+" s' => option_map roundMV (strUnsignedDecimalLiteral s')
  | String "-" s' =>
      option_map (fun v => Number.neg (roundMV v))
                 (strUnsignedDecimalLiteral s')
  | _ => option_map roundMV (strUnsignedDecimalLiteral s)
  end.

(** Every character of [s] is a decimal digit. *)
Fixpoint digits_only (s : string) : bool :=
  match s with
  | String c s' =>
      match digit c with
      | Some _ => digits_only s'
      | None => false
      end
  | EmptyString => true
  end.

(** [s] cannot continue a run of digits into a longer literal: it is
    empty, or starts with a character other than a digit, ["."], ["e"]
    and ["E"]. *)
Definition ends_literal (s : string) : bool :=
  match s with
  | String c _ =>
      match digit c with
      | Some _ => false
      | None => negb (Ascii.eqb c "." || Ascii.eqb c "e" || Ascii.eqb c "E")
      end
  | EmptyString => true
  end.

(** Every character of [s] is white space. *)
Fixpoint whitespace_only (s : string) : bool :=
  match s with
  | String c s' => isStrWhiteSpaceChar c && whitespace_only s'
  | EmptyString => true
  end.

End Parse.

(** The global [parseFloat], applied to a string. *)
Definition parseFloat (s : string) : number :=
  match Parse.strDecimalLiteral (Parse.trimStart s) with
  | Some x => x
  | None => Number.NaN
  end.

(** The global [isNaN], applied to a number. *)
Definition isNaN (x : number) : bool :=
  match x with
  | S754_nan => true
  | _ => false
  end.

(* ===================================================================== *)
(** ** The data model *)
(* ===================================================================== *)

Inductive InvestmentType : Type := deposit | withdrawal.

(** [Investment] of [@/types/investment]; the form fills every field. *)
Module Inv.
Record Investment : Type := {
  id : string;
  date : string;
  amount : number;
  ethPrice : number;
  ethAmount : number;
  type : InvestmentType
}.
End Inv.
Definition Investment : Type := Inv.Investment.

(** A string in a condition is falsy exactly when it is empty. *)
Definition truthy (s : string) : bool := negb (String.eqb s "").

(* ===================================================================== *)
(** ** PrivateRoute *)
(* ===================================================================== *)

Module Auth.

(** What [useAuth()] yields; a user object is never falsy. *)
Record AuthState (User : Type) : Type := {
  user : option User;
  loading : bool
}.
Arguments user {User} _.
Arguments loading {User} _.

(** What the component returns: the loading [div], its own children,
    or a [Navigate] element. *)
Inductive Rendered (Children : Type) : Type :=
| div (text : string)
| render (children : Children)
| Navigate (to : string).
Arguments div {Children} _.
Arguments render {Children} _.
Arguments Navigate {Children} _.

Definition PrivateRoute {User Children : Type}
    (useAuth : AuthState User) (children : Children) : Rendered Children :=
  if loading useAuth then div "Loading..."
  else
    match user useAuth with
    | Some _ => render children
    | None => Navigate "/login"
    end.

End Auth.

(* ===================================================================== *)
(** ** InvestmentForm *)
(* ===================================================================== *)

Module Form.

(** The [useState] cells of the component. *)
Record State : Type := {
  date : string;
  amount : string;
  ethPrice : string;
  isLoading : bool;
  type : InvestmentType
}.

(** The calls the component makes to its collaborators. *)
Inductive Event : Type :=
| preventDefault
| toast_error (message : string)
| toast_success (message : string)
| console_error (message : string) (error : string)
| onAddInvestment (investment : Investment)
| getEthPrice.

(** The pending state (what the setters have written) and the calls
    made so far, oldest first. *)
Record World : Type := {
  state : State;
  trace : list Event
}.

(** What the surroundings decide: the text of
    [Math.random().toString(36)], and whether a call to [toast]
    throws. *)
Record Env : Type := {
  Math_random_toString36 : string;
  toast_throws : bool
}.

(** How [await getEthPrice()] settles. *)
Inductive Settled : Type :=
| Resolved (price : number)
| Rejected (error : string).

(** *** The monad *)

Inductive Completion (A : Type) : Type :=
| Normal (a : A)
| Throw (error : string).
Arguments Normal {A} _.
Arguments Throw {A} _.

Definition M (A : Type) : Type := World -> Completion A * World.

Definition ret {A : Type} (a : A) : M A := fun w => (Normal a, w).

Definition bind {A B : Type} (m : M A) (k : A -> M B) : M B :=
  fun w =>
    match m w with
    | (Normal a, w') => k a w'
    | (Throw e, w') => (Throw e, w')
    end.

Definition throw {A : Type} (e : string) : M A := fun w => (Throw e, w).

Declare Scope js_scope.
Delimit Scope js_scope with js.
Notation "x <- m ;; k" := (bind m (fun x => k))
  (at level 61, m at next level, right associativity) : js_scope.
Notation "m ;; k" := (bind m (fun _ => k))
  (at level 61, right associativity) : js_scope.
Local Open Scope js_scope.

(** [try { body } catch (error) { handler } finally { finalizer }]:
    the finalizer runs whatever the completion of the body or of the
    handler, and an abrupt completion of the finalizer replaces it. *)
Definition try_catch_finally
    (body : M unit) (handler : string -> M unit) (finalizer : M unit)
    : M unit :=
  fun w =>
    let (c, w1) :=
      match body w with
      | (Normal a, w') => (Normal a, w')
      | (Throw e, w') => handler e w'
      end in
    match finalizer w1 with
    | (Normal _, w2) => (c, w2)
    | (Throw e, w2) => (Throw e, w2)
    end.

(** *** Collaborators and setters *)

Definition call (ev : Event) : M unit :=
  fun w => (Normal tt, {| state := state w; trace := trace w ++ [ev] |}).

Definition toast (env : Env) (ev : Event) : M unit :=
  call ev ;;
  if toast_throws env then throw "toast" else ret tt.

Definition setState (f : State -> State) : M unit :=
  fun w => (Normal tt, {| state := f (state w); trace := trace w |}).

Definition setAmount (v : string) : M unit :=
  setState (fun s =>
    {| date := date s; amount := v; ethPrice := ethPrice s;
       isLoading := isLoading s; type := type s |}).

Definition setEthPrice (v : string) : M unit :=
  setState (fun s =>
    {| date := date s; amount := amount s; ethPrice := v;
       isLoading := isLoading s; type := type s |}).

Definition setIsLoading (v : bool) : M unit :=
  setState (fun s =>
    {| date := date s; amount := amount s; ethPrice := ethPrice s;
       isLoading := v; type := type s |}).

(** [Math.random().toString(36).substring(2, 9)] *)
Definition randomId (env : Env) : string :=
  substring 2 7 (Math_random_toString36 env).

Section Component.

(** [Number.prototype.toString], of which the form only stores the
    result. *)
Variable Number_toString : number -> string.

Variable env : Env.

(** **** fetchEthPrice

    The async function is cut at its [await]: [fetchEthPrice_begin]
    runs inside the caller, up to the call of [getEthPrice] (an
    async operation, which hands back a promise and does not throw);
    [fetchEthPrice_resume] runs once the promise has settled. *)
Definition fetchEthPrice_begin : M unit :=
  setIsLoading true ;;
  call getEthPrice.

Definition await (r : Settled) : M number :=
  match r with
  | Resolved price => ret price
  | Rejected error => throw error
  end.

Definition fetchEthPrice_resume (r : Settled) : M unit :=
  try_catch_finally
    (price <- await r ;;
     setEthPrice (Number_toString price))
    (fun error =>
       call (console_error "Error fetching ETH price:" error) ;;
       toast env (toast_error "Error getting ETH price. Enter it manually."))
    (setIsLoading false).

(** A whole run of [fetchEthPrice], from the call to the end. *)
Definition fetchEthPrice (r : Settled) : M unit :=
  fetchEthPrice_begin ;;
  fetchEthPrice_resume r.

(** **** handleSubmit

    [st] is what the handler's closure sees of the state; the
    setters write to the pending state of the world.  The early
    [return]s are the [then] branches. *)
Definition handleSubmit
    (editingInvestment : option Investment) (st : State) : M unit :=
  call preventDefault ;;
  if negb (truthy (date st)) || negb (truthy (amount st))
     || negb (truthy (ethPrice st))
  then toast env (toast_error "Please complete all fields")
  else
    let amountNumber := parseFloat (amount st) in
    let ethPriceNumber := parseFloat (ethPrice st) in
    if isNaN amountNumber || isNaN ethPriceNumber
    then toast env (toast_error "Please enter valid numeric values")
    else
      if Number.leb amountNumber Number.zero
         || Number.leb ethPriceNumber Number.zero
      then toast env (toast_error "Values must be greater than zero")
      else
        let finalAmount := amountNumber in
        let finalEthAmount := Number.div amountNumber ethPriceNumber in
        let '(finalAmount, finalEthAmount) :=
          match type st with
          | withdrawal => (Number.neg finalAmount, Number.neg finalEthAmount)
          | deposit => (finalAmount, finalEthAmount)
          end in
        let investmentData : Investment :=
          {| Inv.id :=
               match editingInvestment with
               | Some e => if truthy (Inv.id e) then Inv.id e
                           else randomId env
               | None => randomId env
               end;
             Inv.date := date st;
             Inv.amount := finalAmount;
             Inv.ethPrice := ethPriceNumber;
             Inv.ethAmount := finalEthAmount;
             Inv.type := type st |} in
        call (onAddInvestment investmentData) ;;
        match editingInvestment with
        | None => setAmount "" ;; fetchEthPrice_begin
        | Some _ => ret tt
        end ;;
        toast env (toast_success
                     match editingInvestment with
                     | Some _ => "Investment updated"
                     | None => "Investment added"
                     end).

End Component.

(** *** Observations *)

(** The world an action leaves when started from state [st] with no
    call made yet. *)
Definition run {A : Type} (m : M A) (st : State) : World :=
  snd (m {| state := st; trace := [] |}).

(** The investments handed to [onAddInvestment], in order. *)
Fixpoint submitted (t : list Event) : list Investment :=
  match t with
  | onAddInvestment i :: t' => i :: submitted t'
  | _ :: t' => submitted t'
  | [] => []
  end.

(** The notifications shown, in order. *)
Fixpoint notifications (t : list Event) : list Event :=
  match t with
  | toast_error m :: t' => toast_error m :: notifications t'
  | toast_success m :: t' => toast_success m :: notifications t'
  | _ :: t' => notifications t'
  | [] => []
  end.

(** The number of price requests issued. *)
Fixpoint fetches (t : list Event) : nat :=
  match t with
  | getEthPrice :: t' => S (fetches t')
  | _ :: t' => fetches t'
  | [] => O
  end.

(** The world an action leaves when started in world [w]: what a later
    task (a settled promise, the next event) finds. *)
Definition after {A : Type} (m : M A) (w : World) : World := snd (m w).

(** *** The effect on [editingInvestment] *)

Definition setDate (v : string) : M unit :=
  setState (fun s =>
    {| date := v; amount := amount s; ethPrice := ethPrice s;
       isLoading := isLoading s; type := type s |}).

Definition setType (v : InvestmentType) : M unit :=
  setState (fun s =>
    {| date := date s; amount := amount s; ethPrice := ethPrice s;
       isLoading := isLoading s; type := v |}).

(** [s.split("T")[0]]: what precedes the first ["T"] of [s], all of [s]
    when it has none. *)
Fixpoint before_T (s : string) : string :=
  match s with
  | String c s' => if Ascii.eqb c "T" then "" else String c (before_T s')
  | EmptyString => ""
  end.

Section Effect.

(** [Number.prototype.toString], as for [fetchEthPrice]. *)
Variable Number_toString : number -> string.

(** [new Date(s).toISOString()]: the ISO text of the instant that [s]
    denotes, or [None] when [s] denotes none and the call throws a
    RangeError. *)
Variable Date_toISOString : string -> option string.

Definition toISOString (s : string) : M string :=
  fun w =>
    match Date_toISOString s with
    | Some iso => ret iso w
    | None => throw "RangeError: Invalid time value" w
    end.

(** The body of the [useEffect] that runs after the first render and
    after each change of [editingInvestment].  The type of an
    investment is ['deposit'] or ['withdrawal'], neither of them falsy,
    so [editingInvestment.type || 'deposit'] is the type itself. *)
Definition useEffect (editingInvestment : option Investment) : M unit :=
  match editingInvestment with
  | Some e =>
      iso <- toISOString (Inv.date e) ;;
      setDate (before_T iso) ;;
      setAmount (Number_toString (Number.abs (Inv.amount e))) ;;
      setEthPrice (Number_toString (Inv.ethPrice e)) ;;
      setType (Inv.type e)
  | None => fetchEthPrice_begin
  end.

End Effect.

End Form.

(* ===================================================================== *)
(** ** Facts about numbers *)
(* ===================================================================== *)

Module NumberFacts.

Import Number.

(** Shifting a mantissa to the right keeps it non-negative. *)
Lemma shr_1_nonneg (mrs : shr_record) :
  0 <= shr_m mrs -> 0 <= shr_m (shr_1 mrs).
Proof.
  destruct mrs as [m r s]; simpl.
  destruct m as [|p|p]; simpl; intros H; try lia.
  - destruct p; simpl; lia.
Qed.

Lemma iter_shr_1_nonneg (n : positive) :
  forall mrs, 0 <= shr_m mrs -> 0 <= shr_m (iter_pos shr_1 n mrs).
Proof.
  induction n as [n IH|n IH|]; intros mrs H; simpl.
  - apply IH, IH, shr_1_nonneg, H.
  - apply IH, IH, H.
  - apply shr_1_nonneg, H.
Qed.

Lemma shr_fexp_nonneg (m e : Z) (l : location) :
  0 <= m -> 0 <= shr_m (fst (shr_fexp prec emax m e l)).
Proof.
  intros H. unfold shr_fexp, shr.
  assert (H0 : 0 <= shr_m (shr_record_of_loc m l))
    by (destruct l as [|[]]; exact H).
  destruct (fexp prec emax (Zdigits2 m + e) - e); simpl; trivial.
  apply iter_shr_1_nonneg, H0.
Qed.

Lemma round_nearest_even_nonneg (m : Z) (l : location) :
  0 <= m -> 0 <= round_nearest_even m l.
Proof.
  intros H. destruct l as [|[]]; simpl; try lia.
  destruct (Z.even m); lia.
Qed.

Lemma binary_round_aux_signed (s : bool) (m e : Z) (l : location) :
  0 <= m -> signed_as s (binary_round_aux prec emax s m e l).
Proof.
  intros H. unfold binary_round_aux.
  pose proof (shr_fexp_nonneg m e l H) as H1.
  destruct (shr_fexp prec emax m e l) as [mrs1 e1]; simpl in H1.
  pose proof (shr_fexp_nonneg _ e1 loc_Exact
                (round_nearest_even_nonneg _ (loc_of_shr_record mrs1) H1))
    as H2.
  destruct (shr_fexp prec emax _ e1 loc_Exact) as [mrs2 e2]; simpl in H2.
  destruct (shr_m mrs2) as [|q|q].
  - constructor.
  - destruct (e2 <=? emax - prec); constructor.
  - lia.
Qed.

(** Rounding to nearest, ties to even, is symmetric. *)
Lemma binary_round_aux_opp (s : bool) (m e : Z) (l : location) :
  binary_round_aux prec emax (negb s) m e l
  = SFopp (binary_round_aux prec emax s m e l).
Proof.
  unfold binary_round_aux.
  destruct (shr_fexp prec emax m e l) as [mrs1 e1].
  destruct (shr_fexp prec emax _ e1 loc_Exact) as [mrs2 e2].
  destruct (shr_m mrs2); try reflexivity.
  destruct (e2 <=? emax - prec); reflexivity.
Qed.

Lemma SFdiv_core_binary_nonneg (mx my : positive) (ex ey : Z) :
  0 <= fst (fst (SFdiv_core_binary prec emax (Zpos mx) ex (Zpos my) ey)).
Proof.
  unfold SFdiv_core_binary.
  set (s := ex - ey - _).
  set (m' := match s with Z0 => Zpos mx | Zpos _ => Z.shiftl (Zpos mx) s
                       | Zneg _ => 0 end).
  assert (Hm : 0 <= m').
  { subst m'. destruct s; try lia. apply Z.shiftl_nonneg. lia. }
  pose proof (Z.div_pos m' (Zpos my) Hm ltac:(lia)) as Hq.
  unfold Z.div in Hq.
  destruct (Z.div_eucl m' (Zpos my)) as [q r]. exact Hq.
Qed.

(** [x > 0] and [x < 0], read off the representation. *)
Lemma gtb_zero_inv (x : number) :
  gtb x zero = true ->
  x = S754_infinity false \/ exists m e, x = S754_finite false m e.
Proof.
  destruct x as [s|[]| |[] m e]; simpl; try discriminate; eauto.
Qed.

Lemma signed_pos (x : number) :
  signed_as false x -> gtb x zero = true \/ x = S754_zero false.
Proof. intros []; auto. Qed.

Lemma signed_neg (x : number) :
  signed_as true x -> ltb x zero = true \/ x = S754_zero true.
Proof. intros []; auto. Qed.

Lemma neg_signed (s : bool) (x : number) :
  signed_as s x -> signed_as (negb s) (neg x).
Proof. intros []; constructor. Qed.

Lemma neg_gtb_zero (x : number) :
  gtb x zero = true -> ltb (neg x) zero = true.
Proof.
  intros H. destruct (gtb_zero_inv x H) as [->|(m & e & ->)]; reflexivity.
Qed.

(** A quotient of two positive numbers carries the sign [+], unless
    both are infinite. *)
Lemma div_signed (a p : number) :
  gtb a zero = true -> gtb p zero = true ->
  signed_as false (div a p)
  \/ (div a p = NaN /\ a = Infinity /\ p = Infinity).
Proof.
  intros Ha Hp.
  destruct (gtb_zero_inv a Ha) as [->|(ma & ea & ->)];
    destruct (gtb_zero_inv p Hp) as [->|(mp & ep & ->)].
  - right. repeat split.
  - left. constructor.
  - left. constructor.
  - left. unfold div, SFdiv.
    pose proof (SFdiv_core_binary_nonneg ma mp ea ep) as Hq.
    destruct (SFdiv_core_binary prec emax (Zpos ma) ea (Zpos mp) ep)
      as [[q e] l]; simpl in Hq.
    apply binary_round_aux_signed, Hq.
Qed.

(** Negation commutes with division: [(-a) / p] is [-(a / p)], the
    same double. *)
Lemma div_neg_l (a p : number) :
  div (neg a) p = neg (div a p).
Proof.
  destruct a as [sa|sa| |sa ma ea]; destruct p as [sp|sp| |sp mp ep];
    simpl; try reflexivity;
    try (destruct sa, sp; reflexivity).
  unfold div, neg, SFdiv; simpl.
  destruct (SFdiv_core_binary prec emax (Zpos ma) ea (Zpos mp) ep)
    as [[q e] l].
  rewrite <- binary_round_aux_opp.
  destruct sa, sp; reflexivity.
Qed.

(** For a number that is not NaN, [x <= 0] is the negation of
    [x > 0]. *)
Lemma leb_zero_gtb (x : number) :
  isNaN x = false -> leb x zero = negb (gtb x zero).
Proof.
  destruct x as [s|[]| |[] m e]; simpl; try discriminate; reflexivity.
Qed.

Lemma gtb_zero_not_NaN (x : number) :
  gtb x zero = true -> isNaN x = false.
Proof. destruct x; simpl; try discriminate; reflexivity. Qed.

Lemma gtb_zero_not_leb (x : number) :
  gtb x zero = true -> leb x zero = false.
Proof.
  intros H. rewrite leb_zero_gtb, H by (apply gtb_zero_not_NaN, H).
  reflexivity.
Qed.

(** [==] on numbers holds between a number and itself unless it is
    NaN. *)
Lemma eqb_refl_iff (x : number) : eqb x x = negb (isNaN x).
Proof.
  destruct x as [s|[]| |[] m e]; simpl; try reflexivity;
    unfold eqb, SFeqb, SFcompare; rewrite Z.compare_refl;
    rewrite Pos.compare_cont_refl; reflexivity.
Qed.

End NumberFacts.

(* ===================================================================== *)
(** ** Facts about parseFloat *)
(* ===================================================================== *)

Module ParseFacts.

Import Parse.

Lemma trimStart_whitespace_only (s : string) :
  whitespace_only s = true -> trimStart s = "".
Proof.
  induction s as [|c s IH]; simpl; intros H; [reflexivity|].
  apply andb_true_iff in H as [Hc Hs]. rewrite Hc. apply IH, Hs.
Qed.

Lemma parseFloat_whitespace_only (s : string) :
  whitespace_only s = true -> parseFloat s = Number.NaN.
Proof.
  intros H. unfold parseFloat.
  rewrite (trimStart_whitespace_only s H). reflexivity.
Qed.

Lemma parseFloat_empty : parseFloat "" = Number.NaN.
Proof. reflexivity. Qed.

Lemma truthy_iff (s : string) : truthy s = true <-> s <> "".
Proof.
  unfold truthy. destruct (String.eqb_spec s ""); simpl; split;
    congruence.
Qed.

Lemma truthy_false_iff (s : string) : truthy s = false <-> s = "".
Proof.
  unfold truthy. destruct (String.eqb_spec s ""); simpl; split;
    congruence.
Qed.

(** Some values of [parseFloat], as the doubles a JavaScript engine
    gives (mantissa and binary exponent). *)
Example parseFloat_samples :
  parseFloat "0.1" = S754_finite false 7205759403792794 (-56)
  /\ parseFloat "  12.5abc" = S754_finite false 7036874417766400 (-49)
  /\ parseFloat "-5" = S754_finite true 5629499534213120 (-50)
  /\ parseFloat "5.e3" = S754_finite false 5497558138880000 (-40)
  /\ parseFloat "1e308" = S754_finite false 5010420900022432 971
  /\ parseFloat "1.7976931348623159e308" = Number.Infinity
  /\ parseFloat "5e-324" = S754_finite false 1 (-1074)
  /\ parseFloat "2.4e-324" = Number.zero
  /\ parseFloat "-0" = S754_zero true
  /\ parseFloat ".e3" = Number.NaN
  /\ parseFloat "abc" = Number.NaN.
Proof. repeat split; vm_compute; reflexivity. Qed.

(** A text that parses to a positive number is not empty. *)
Lemma parseFloat_pos_truthy (s : string) :
  Number.gtb (parseFloat s) Number.zero = true -> truthy s = true.
Proof.
  destruct s; [discriminate|reflexivity].
Qed.

End ParseFacts.

(* ===================================================================== *)
(** ** The four ways handleSubmit runs *)
(* ===================================================================== *)

Module FormFacts.

Import Form.
Import NumberFacts ParseFacts.

Ltac exec :=
  unfold run, handleSubmit, toast, fetchEthPrice_begin, setAmount,
    setIsLoading, setState, call, bind, ret, throw;
  cbn [fst snd state trace app].

Section Runs.

Variable env : Env.
Variable editingInvestment : option Investment.
Variable st : State.

Let w := run (handleSubmit env editingInvestment st) st.
Let a := parseFloat (amount st).
Let p := parseFloat (ethPrice st).

(** Step 1 fails: a required field is empty. *)
Lemma run_incomplete :
  truthy (date st) && truthy (amount st) && truthy (ethPrice st) = false ->
  w = {| state := st;
         trace := [preventDefault;
                   toast_error "Please complete all fields"] |}.
Proof.
  subst w. intros H. exec.
  replace (negb (truthy (date st)) || negb (truthy (amount st))
           || negb (truthy (ethPrice st)))
    with true
    by (destruct (truthy (date st)), (truthy (amount st)),
          (truthy (ethPrice st)); simpl in *; congruence).
  destruct (toast_throws env); reflexivity.
Qed.

(** Step 2 fails: a value does not parse. *)
Lemma run_not_numeric :
  truthy (date st) && truthy (amount st) && truthy (ethPrice st) = true ->
  isNaN a || isNaN p = true ->
  w = {| state := st;
         trace := [preventDefault;
                   toast_error "Please enter valid numeric values"] |}.
Proof.
  subst w a p. intros H Hn. exec.
  apply andb_true_iff in H as [H H3]. apply andb_true_iff in H as [H1 H2].
  rewrite H1, H2, H3, Hn. cbn [negb orb].
  destruct (toast_throws env); reflexivity.
Qed.

(** Step 3 fails: a value is not above zero. *)
Lemma run_not_positive :
  truthy (date st) && truthy (amount st) && truthy (ethPrice st) = true ->
  isNaN a || isNaN p = false ->
  Number.leb a Number.zero || Number.leb p Number.zero = true ->
  w = {| state := st;
         trace := [preventDefault;
                   toast_error "Values must be greater than zero"] |}.
Proof.
  subst w a p. intros H Hn Hz. exec.
  apply andb_true_iff in H as [H H3]. apply andb_true_iff in H as [H1 H2].
  rewrite H1, H2, H3, Hn, Hz. cbn [negb orb].
  destruct (toast_throws env); reflexivity.
Qed.

(** All three steps pass: the record is handed over. *)
Lemma run_accepted :
  truthy (date st) && truthy (amount st) && truthy (ethPrice st) = true ->
  isNaN a || isNaN p = false ->
  Number.leb a Number.zero || Number.leb p Number.zero = false ->
  w = {| state :=
           match editingInvestment with
           | None => {| date := date st; amount := "";
                        ethPrice := ethPrice st; isLoading := true;
                        type := type st |}
           | Some _ => st
           end;
         trace :=
           [preventDefault;
            onAddInvestment
              {| Inv.id :=
                   match editingInvestment with
                   | Some e => if truthy (Inv.id e) then Inv.id e
                               else randomId env
                   | None => randomId env
                   end;
                 Inv.date := date st;
                 Inv.amount :=
                   match type st with
                   | withdrawal => Number.neg a
                   | deposit => a
                   end;
                 Inv.ethPrice := p;
                 Inv.ethAmount :=
                   match type st with
                   | withdrawal => Number.neg (Number.div a p)
                   | deposit => Number.div a p
                   end;
                 Inv.type := type st |}]
           ++ match editingInvestment with
              | None => [getEthPrice]
              | Some _ => []
              end
           ++ [match editingInvestment with
               | Some _ => toast_success "Investment updated"
               | None => toast_success "Investment added"
               end] |}.
Proof.
  subst w a p. intros H Hn Hz. exec.
  apply andb_true_iff in H as [H H3]. apply andb_true_iff in H as [H1 H2].
  rewrite H1, H2, H3, Hn, Hz. cbn [negb orb].
  destruct st as [d am ep il ty]; cbn [date amount ethPrice isLoading type].
  destruct ty, editingInvestment, (toast_throws env); reflexivity.
Qed.

End Runs.

End FormFacts.

(* ===================================================================== *)
(** ** Properties of the components *)
(* ===================================================================== *)

Import Form.
Import NumberFacts ParseFacts FormFacts.

(** A record is handed over only when the three validation steps pass. *)
Lemma submitted_inv (env : Env) (ed : option Investment) (st : State)
    (i : Investment) :
  submitted (trace (run (handleSubmit env ed st) st)) = [i] ->
  truthy (date st) && truthy (amount st) && truthy (ethPrice st) = true
  /\ Number.is_positive (parseFloat (amount st))
  /\ Number.is_positive (parseFloat (ethPrice st)).
Proof.
  intros H.
  destruct (truthy (date st) && truthy (amount st) && truthy (ethPrice st))
    eqn:Hc.
  2:{ rewrite (run_incomplete env ed st Hc) in H. discriminate. }
  destruct (isNaN (parseFloat (amount st)) || isNaN (parseFloat (ethPrice st)))
    eqn:Hn.
  { rewrite (run_not_numeric env ed st Hc Hn) in H. discriminate. }
  destruct (Number.leb (parseFloat (amount st)) Number.zero
            || Number.leb (parseFloat (ethPrice st)) Number.zero) eqn:Hz.
  { rewrite (run_not_positive env ed st Hc Hn Hz) in H. discriminate. }
  apply orb_false_iff in Hn as [Hna Hnp].
  apply orb_false_iff in Hz as [Hza Hzp].
  rewrite leb_zero_gtb in Hza, Hzp by assumption.
  apply negb_false_iff in Hza, Hzp. auto.
Qed.

(** Conversely, valid input passes the three steps. *)
Lemma valid_passes (st : State) :
  date st <> "" ->
  Number.is_positive (parseFloat (amount st)) ->
  Number.is_positive (parseFloat (ethPrice st)) ->
  truthy (date st) && truthy (amount st) && truthy (ethPrice st) = true
  /\ isNaN (parseFloat (amount st)) || isNaN (parseFloat (ethPrice st)) = false
  /\ Number.leb (parseFloat (amount st)) Number.zero
     || Number.leb (parseFloat (ethPrice st)) Number.zero = false.
Proof.
  intros Hd Ha Hp. repeat split.
  - apply truthy_iff in Hd.
    rewrite Hd, (parseFloat_pos_truthy _ Ha), (parseFloat_pos_truthy _ Hp).
    reflexivity.
  - rewrite (gtb_zero_not_NaN _ Ha), (gtb_zero_not_NaN _ Hp). reflexivity.
  - rewrite (gtb_zero_not_leb _ Ha), (gtb_zero_not_leb _ Hp). reflexivity.
Qed.

Lemma submitted_passes (env : Env) (ed : option Investment) (st : State)
    (i : Investment) :
  submitted (trace (run (handleSubmit env ed st) st)) = [i] ->
  truthy (date st) && truthy (amount st) && truthy (ethPrice st) = true
  /\ isNaN (parseFloat (amount st)) || isNaN (parseFloat (ethPrice st)) = false
  /\ Number.leb (parseFloat (amount st)) Number.zero
     || Number.leb (parseFloat (ethPrice st)) Number.zero = false.
Proof.
  intros H. destruct (submitted_inv env ed st i H) as (Hc & Ha & Hp).
  apply valid_passes; trivial.
  apply andb_true_iff in Hc as [Hc _]. apply andb_true_iff in Hc as [Hc _].
  apply truthy_iff, Hc.
Qed.

(** C1, amended. For every submit with a non-empty date in which amount
    and ethPrice parse to numbers [a > 0] and [p > 0], exactly one record
    is passed to onAddInvestment, with [ethPrice = p].  For a deposit it
    has [amount = a] (positive) and [ethAmount = a / p], the quotient of
    the two doubles, which is positive, or [+0] when it underflows, or
    NaN when [a] and [p] are both Infinity.  For a withdrawal it has
    [amount = -a] (negative) and [ethAmount = -(a / p)], which is
    negative, or [-0], or NaN in the same cases. *)
Theorem handleSubmit_record (env : Env) (ed : option Investment)
    (st : State) (a p : number) :
  date st <> "" ->
  parseFloat (amount st) = a ->
  parseFloat (ethPrice st) = p ->
  Number.is_positive a ->
  Number.is_positive p ->
  exists i,
    submitted (trace (run (handleSubmit env ed st) st)) = [i]
    /\ Inv.ethPrice i = p
    /\ Number.is_positive (Inv.ethPrice i)
    /\ match type st with
       | deposit =>
           Inv.amount i = a
           /\ Inv.ethAmount i = Number.div a p
           /\ Number.is_positive (Inv.amount i)
           /\ (Number.is_positive (Inv.ethAmount i)
               \/ Inv.ethAmount i = S754_zero false
               \/ (Inv.ethAmount i = Number.NaN
                   /\ a = Number.Infinity /\ p = Number.Infinity))
       | withdrawal =>
           Inv.amount i = Number.neg a
           /\ Inv.ethAmount i = Number.neg (Number.div a p)
           /\ Number.is_negative (Inv.amount i)
           /\ (Number.is_negative (Inv.ethAmount i)
               \/ Inv.ethAmount i = S754_zero true
               \/ (Inv.ethAmount i = Number.NaN
                   /\ a = Number.Infinity /\ p = Number.Infinity))
       end.
Proof.
  intros Hd Ea Ep Ha Hp. subst a p.
  destruct (valid_passes st Hd Ha Hp) as (Hc & Hn & Hz).
  rewrite (run_accepted env ed st Hc Hn Hz).
  pose proof (div_signed _ _ Ha Hp) as Hq.
  destruct ed as [e|]; cbn [trace app submitted];
    (eexists; split; [reflexivity|]);
    cbn [Inv.ethPrice Inv.amount Inv.ethAmount];
    (split; [reflexivity|]); (split; [exact Hp|]);
    destruct (type st); repeat split; trivial;
    try (apply neg_gtb_zero, Ha).
  all: destruct Hq as [Hq|(Hq & Hi)]; [|rewrite Hq; auto].
  all: try (destruct (signed_pos _ Hq); auto; fail).
  all: apply (neg_signed false) in Hq; destruct (signed_neg _ Hq); auto.
Qed.

(** C1: a valid submit, as an instance. *)
Lemma handleSubmit_record_witness :
  exists i,
    submitted
      (trace
         (run
            (handleSubmit
               {| Math_random_toString36 := "0.k3j9x2mq7pw";
                  toast_throws := false |}
               None
               {| date := "2024-05-01"; amount := "500"; ethPrice := "3500";
                  isLoading := false; type := withdrawal |})
            {| date := "2024-05-01"; amount := "500"; ethPrice := "3500";
               isLoading := false; type := withdrawal |})) = [i]
    /\ Inv.ethPrice i = parseFloat "3500"
    /\ Inv.amount i = Number.neg (parseFloat "500").
Proof.
  destruct (handleSubmit_record
              {| Math_random_toString36 := "0.k3j9x2mq7pw";
                 toast_throws := false |}
              None
              {| date := "2024-05-01"; amount := "500"; ethPrice := "3500";
                 isLoading := false; type := withdrawal |}
              (parseFloat "500") (parseFloat "3500"))
    as (i & Hi & Hp & _ & Ha & _).
  - discriminate.
  - reflexivity.
  - reflexivity.
  - reflexivity.
  - reflexivity.
  - exists i. auto.
Defined.

(** C1 as stated fails where the quotient is not a positive number.  A
    deposit of ["1e-200"] at price ["1e200"] passes validation and is
    recorded with [ethAmount = +0]: the quotient underflows.  A deposit
    of ["Infinity"] at price ["Infinity"] passes validation and is
    recorded with [ethAmount = NaN]. *)
Lemma handleSubmit_underflow_deposit :
  (let st := {| date := "2024-05-01"; amount := "1e-200";
                ethPrice := "1e200"; isLoading := false; type := deposit |} in
   date st <> ""
   /\ Number.is_positive (parseFloat (amount st))
   /\ Number.is_positive (parseFloat (ethPrice st))
   /\ exists i,
        submitted
          (trace
             (run (handleSubmit
                     {| Math_random_toString36 := "0.k3j9x2mq7pw";
                        toast_throws := false |} None st) st)) = [i]
        /\ Inv.ethAmount i = S754_zero false
        /\ ~ Number.is_positive (Inv.ethAmount i))
  /\
  (let st := {| date := "2024-05-01"; amount := "Infinity";
                ethPrice := "Infinity"; isLoading := false;
                type := deposit |} in
   date st <> ""
   /\ Number.is_positive (parseFloat (amount st))
   /\ Number.is_positive (parseFloat (ethPrice st))
   /\ exists i,
        submitted
          (trace
             (run (handleSubmit
                     {| Math_random_toString36 := "0.k3j9x2mq7pw";
                        toast_throws := false |} None st) st)) = [i]
        /\ Inv.ethAmount i = Number.NaN
        /\ ~ Number.is_positive (Inv.ethAmount i)).
Proof.
  split; cbv zeta.
  all: split; [discriminate|].
  all: split; [vm_compute; reflexivity|].
  all: split; [vm_compute; reflexivity|].
  all: eexists; split; [vm_compute; reflexivity|].
  all: split; [reflexivity|]; cbv; discriminate.
Qed.

(** C2, amended. For every record handed to onAddInvestment, [ethAmount]
    is the very double [amount / ethPrice], sign included, so
    [ethAmount == amount / ethPrice] holds unless the quotient is NaN
    (amount and ethPrice both infinite).  [sign(amount)] is [-1] for a
    withdrawal and [+1] for a deposit; [sign(ethAmount)] is the same,
    unless the quotient is a zero (then [-0] for a withdrawal, [+0] for
    a deposit) or NaN. *)
Theorem handleSubmit_quotient (env : Env) (ed : option Investment)
    (st : State) (i : Investment) :
  submitted (trace (run (handleSubmit env ed st) st)) = [i] ->
  Inv.ethAmount i = Number.div (Inv.amount i) (Inv.ethPrice i)
  /\ Number.eqb (Inv.ethAmount i) (Number.div (Inv.amount i) (Inv.ethPrice i))
     = negb (isNaN (Inv.ethAmount i))
  /\ Number.sign (Inv.amount i)
     = match Inv.type i with
       | withdrawal => Number.neg Number.one
       | deposit => Number.one
       end
  /\ (Number.sign (Inv.ethAmount i) = Number.sign (Inv.amount i)
      \/ Inv.ethAmount i
         = S754_zero match Inv.type i with
                     | withdrawal => true
                     | deposit => false
                     end
      \/ (Inv.ethAmount i = Number.NaN
          /\ Inv.amount i
             = match Inv.type i with
               | withdrawal => Number.neg Number.Infinity
               | deposit => Number.Infinity
               end
          /\ Inv.ethPrice i = Number.Infinity)).
Proof.
  intros H.
  destruct (submitted_inv env ed st i H) as (_ & Ha & Hp).
  destruct (submitted_passes env ed st i H) as (Hc & Hn & Hz).
  rewrite (run_accepted env ed st Hc Hn Hz) in H.
  assert (Hi : i =
    {| Inv.id :=
         match ed with
         | Some e => if truthy (Inv.id e) then Inv.id e else randomId env
         | None => randomId env
         end;
       Inv.date := date st;
       Inv.amount :=
         match type st with
         | withdrawal => Number.neg (parseFloat (amount st))
         | deposit => parseFloat (amount st)
         end;
       Inv.ethPrice := parseFloat (ethPrice st);
       Inv.ethAmount :=
         match type st with
         | withdrawal =>
             Number.neg (Number.div (parseFloat (amount st))
                                    (parseFloat (ethPrice st)))
         | deposit =>
             Number.div (parseFloat (amount st)) (parseFloat (ethPrice st))
         end;
       Inv.type := type st |}).
  { destruct ed; cbn [trace app submitted] in H; congruence. }
  clear H. subst i. cbn [Inv.amount Inv.ethPrice Inv.ethAmount Inv.type].
  set (a := parseFloat (amount st)) in *.
  set (p := parseFloat (ethPrice st)) in *.
  assert (E : match type st with
              | withdrawal => Number.neg (Number.div a p)
              | deposit => Number.div a p
              end
              = Number.div match type st with
                           | withdrawal => Number.neg a
                           | deposit => a
                           end p).
  { destruct (type st); [reflexivity|]. symmetry. apply div_neg_l. }
  split; [exact E|].
  split.
  { rewrite <- E. apply eqb_refl_iff. }
  assert (Sa : Number.sign a = Number.one
               /\ Number.sign (Number.neg a) = Number.neg Number.one).
  { destruct (gtb_zero_inv a Ha) as [Ea|(ma & ea & Ea)]; rewrite Ea;
      split; reflexivity. }
  destruct Sa as [Sa Sna].
  split.
  { destruct (type st); assumption. }
  destruct (div_signed a p Ha Hp) as [Hq|(Hq & Hai & Hpi)].
  - destruct (type st); rewrite ?Sa, ?Sna; destruct Hq; auto.
  - right; right. rewrite Hq, Hai, Hpi. destruct (type st); auto.
Qed.

(** C2: the withdrawal of 500 USD at 3500 USD per ETH, as an instance. *)
Lemma handleSubmit_quotient_witness :
  Number.eqb (Number.neg (Number.div (parseFloat "500") (parseFloat "3500")))
             (Number.div (Number.neg (parseFloat "500")) (parseFloat "3500"))
  = true.
Proof.
  exact (proj1 (proj2
    (handleSubmit_quotient
       {| Math_random_toString36 := "0.k3j9x2mq7pw"; toast_throws := false |}
       None
       {| date := "2024-05-01"; amount := "500"; ethPrice := "3500";
          isLoading := false; type := withdrawal |}
       {| Inv.id := "k3j9x2m"; Inv.date := "2024-05-01";
          Inv.amount := Number.neg (parseFloat "500");
          Inv.ethPrice := parseFloat "3500";
          Inv.ethAmount :=
            Number.neg (Number.div (parseFloat "500") (parseFloat "3500"));
          Inv.type := withdrawal |}
       eq_refl))).
Defined.

(** C2 as stated fails in two places.  A withdrawal of ["1e-300"] at
    price ["1e300"] is recorded with [ethAmount = -0], whose sign is
    [-0] and not [-1].  A deposit of ["Infinity"] at price ["Infinity"]
    passes validation and is recorded with [ethAmount = NaN], for which
    [ethAmount == amount / ethPrice] is false. *)
Lemma handleSubmit_sign_lost :
  (let st := {| date := "2024-05-01"; amount := "1e-300";
                ethPrice := "1e300"; isLoading := false;
                type := withdrawal |} in
   exists i,
     submitted
       (trace
          (run (handleSubmit
                  {| Math_random_toString36 := "0.k3j9x2mq7pw";
                     toast_throws := false |} None st) st)) = [i]
     /\ Inv.type i = withdrawal
     /\ Number.sign (Inv.amount i) = Number.neg Number.one
     /\ Number.sign (Inv.ethAmount i) = S754_zero true
     /\ Number.eqb (Number.sign (Inv.ethAmount i))
                   (Number.sign (Inv.amount i)) = false)
  /\
  (let st := {| date := "2024-05-01"; amount := "Infinity";
                ethPrice := "Infinity"; isLoading := false;
                type := deposit |} in
   exists i,
     submitted
       (trace
          (run (handleSubmit
                  {| Math_random_toString36 := "0.k3j9x2mq7pw";
                     toast_throws := false |} None st) st)) = [i]
     /\ Inv.ethAmount i = Number.NaN
     /\ Number.eqb (Inv.ethAmount i)
                   (Number.div (Inv.amount i) (Inv.ethPrice i)) = false).
Proof.
  split; cbv zeta; eexists; (split; [vm_compute; reflexivity|]);
    repeat split.
Qed.

(** C3. When date, amount or ethPrice is the empty string, the only
    notification is "Please complete all fields", nothing is passed to
    onAddInvestment, and the form state is what it was. *)
Theorem handleSubmit_incomplete (env : Env) (ed : option Investment)
    (st : State) :
  date st = "" \/ amount st = "" \/ ethPrice st = "" ->
  let w := run (handleSubmit env ed st) st in
  notifications (trace w) = [toast_error "Please complete all fields"]
  /\ submitted (trace w) = []
  /\ state w = st.
Proof.
  intros H.
  assert (Hc : truthy (date st) && truthy (amount st)
               && truthy (ethPrice st) = false).
  { destruct H as [H|[H|H]]; apply truthy_false_iff in H; rewrite H;
      rewrite ?andb_false_r; reflexivity. }
  cbv zeta. rewrite (run_incomplete env ed st Hc). repeat split.
Qed.

(** C3: an empty amount, as an instance. *)
Lemma handleSubmit_incomplete_witness :
  let st := {| date := "2024-05-01"; amount := ""; ethPrice := "3500";
               isLoading := false; type := deposit |} in
  let w := run (handleSubmit
                  {| Math_random_toString36 := "0.k3j9x2mq7pw";
                     toast_throws := false |} None st) st in
  notifications (trace w) = [toast_error "Please complete all fields"]
  /\ submitted (trace w) = []
  /\ state w = st.
Proof.
  intros st.
  apply (handleSubmit_incomplete
           {| Math_random_toString36 := "0.k3j9x2mq7pw";
              toast_throws := false |} None st).
  right; left. reflexivity.
Defined.

(** C4. When the three fields are non-empty and amount or ethPrice
    parses to NaN, the only notification is "Please enter valid numeric
    values" and nothing is passed to onAddInvestment. *)
Theorem handleSubmit_not_numeric (env : Env) (ed : option Investment)
    (st : State) :
  date st <> "" -> amount st <> "" -> ethPrice st <> "" ->
  isNaN (parseFloat (amount st)) = true
  \/ isNaN (parseFloat (ethPrice st)) = true ->
  let w := run (handleSubmit env ed st) st in
  notifications (trace w) = [toast_error "Please enter valid numeric values"]
  /\ submitted (trace w) = [].
Proof.
  intros Hd Ha Hp H.
  apply truthy_iff in Hd, Ha, Hp.
  assert (Hc : truthy (date st) && truthy (amount st)
               && truthy (ethPrice st) = true)
    by (rewrite Hd, Ha, Hp; reflexivity).
  assert (Hn : isNaN (parseFloat (amount st))
               || isNaN (parseFloat (ethPrice st)) = true)
    by (apply orb_true_iff, H).
  cbv zeta. rewrite (run_not_numeric env ed st Hc Hn). repeat split.
Qed.

(** C4: amount ["abc"], as an instance. *)
Lemma handleSubmit_not_numeric_witness :
  let st := {| date := "2024-05-01"; amount := "abc"; ethPrice := "3500";
               isLoading := false; type := deposit |} in
  let w := run (handleSubmit
                  {| Math_random_toString36 := "0.k3j9x2mq7pw";
                     toast_throws := false |} None st) st in
  notifications (trace w) = [toast_error "Please enter valid numeric values"]
  /\ submitted (trace w) = [].
Proof.
  intros st.
  apply (handleSubmit_not_numeric
           {| Math_random_toString36 := "0.k3j9x2mq7pw";
              toast_throws := false |} None st);
    try discriminate.
  left. reflexivity.
Defined.

(** ethPrice ["xyz"] does not parse either. *)
Example handleSubmit_xyz :
  let st := {| date := "2024-05-01"; amount := "500"; ethPrice := "xyz";
               isLoading := false; type := deposit |} in
  isNaN (parseFloat (ethPrice st)) = true
  /\ run (handleSubmit
            {| Math_random_toString36 := "0.k3j9x2mq7pw";
               toast_throws := false |} None st) st
     = {| state := st;
          trace := [preventDefault;
                    toast_error "Please enter valid numeric values"] |}.
Proof. split; vm_compute; reflexivity. Qed.

(** C5. When the three fields are non-empty, both values parse to
    numbers, and one of them is not greater than zero, the only
    notification is "Values must be greater than zero" and nothing is
    passed to onAddInvestment. *)
Theorem handleSubmit_not_positive (env : Env) (ed : option Investment)
    (st : State) :
  date st <> "" -> amount st <> "" -> ethPrice st <> "" ->
  isNaN (parseFloat (amount st)) = false ->
  isNaN (parseFloat (ethPrice st)) = false ->
  Number.gtb (parseFloat (amount st)) Number.zero = false
  \/ Number.gtb (parseFloat (ethPrice st)) Number.zero = false ->
  let w := run (handleSubmit env ed st) st in
  notifications (trace w) = [toast_error "Values must be greater than zero"]
  /\ submitted (trace w) = [].
Proof.
  intros Hd Ha Hp Hna Hnp H.
  apply truthy_iff in Hd, Ha, Hp.
  assert (Hc : truthy (date st) && truthy (amount st)
               && truthy (ethPrice st) = true)
    by (rewrite Hd, Ha, Hp; reflexivity).
  assert (Hn : isNaN (parseFloat (amount st))
               || isNaN (parseFloat (ethPrice st)) = false)
    by (rewrite Hna, Hnp; reflexivity).
  assert (Hz : Number.leb (parseFloat (amount st)) Number.zero
               || Number.leb (parseFloat (ethPrice st)) Number.zero = true).
  { rewrite !leb_zero_gtb by assumption.
    destruct H as [H|H]; rewrite H; [|rewrite orb_true_r]; reflexivity. }
  cbv zeta. rewrite (run_not_positive env ed st Hc Hn Hz). repeat split.
Qed.

(** C5: amount ["-5"], as an instance. *)
Lemma handleSubmit_not_positive_witness :
  let st := {| date := "2024-05-01"; amount := "-5"; ethPrice := "3500";
               isLoading := false; type := deposit |} in
  let w := run (handleSubmit
                  {| Math_random_toString36 := "0.k3j9x2mq7pw";
                     toast_throws := false |} None st) st in
  notifications (trace w) = [toast_error "Values must be greater than zero"]
  /\ submitted (trace w) = [].
Proof.
  intros st.
  apply (handleSubmit_not_positive
           {| Math_random_toString36 := "0.k3j9x2mq7pw";
              toast_throws := false |} None st);
    try discriminate; try reflexivity.
  left. reflexivity.
Defined.

(** ethPrice ["0"] is a number that is not above zero. *)
Example handleSubmit_zero_price :
  let st := {| date := "2024-05-01"; amount := "500"; ethPrice := "0";
               isLoading := false; type := deposit |} in
  parseFloat (ethPrice st) = Number.zero
  /\ run (handleSubmit
            {| Math_random_toString36 := "0.k3j9x2mq7pw";
               toast_throws := false |} None st) st
     = {| state := st;
          trace := [preventDefault;
                    toast_error "Values must be greater than zero"] |}.
Proof. split; vm_compute; reflexivity. Qed.

(** C6, amended. For every submit that hands a record over: when an
    investment is being edited the only notification is "Investment
    updated", and the record keeps the id of the edited investment
    provided that id is not the empty string (an empty id is replaced by
    a new random identifier); when none is being edited the record gets
    a new random identifier, the characters 2 to 8 of
    [Math.random().toString(36)], and the only notification is
    "Investment added". *)
Theorem handleSubmit_id (env : Env) (ed : option Investment) (st : State)
    (i : Investment) :
  submitted (trace (run (handleSubmit env ed st) st)) = [i] ->
  match ed with
  | Some e =>
      (Inv.id e <> "" -> Inv.id i = Inv.id e)
      /\ (Inv.id e = "" -> Inv.id i = randomId env)
      /\ notifications (trace (run (handleSubmit env ed st) st))
         = [toast_success "Investment updated"]
  | None =>
      Inv.id i = randomId env
      /\ notifications (trace (run (handleSubmit env ed st) st))
         = [toast_success "Investment added"]
  end.
Proof.
  intros H.
  destruct (submitted_passes env ed st i H) as (Hc & Hn & Hz).
  rewrite (run_accepted env ed st Hc Hn Hz) in *.
  destruct ed as [e|]; cbn [trace app submitted notifications] in *;
    injection H as <-; cbn [Inv.id].
  - repeat split.
    + intros He. apply truthy_iff in He. rewrite He. reflexivity.
    + intros He. apply truthy_false_iff in He. rewrite He. reflexivity.
  - split; reflexivity.
Qed.

(** C6: an edit of the investment ["a1b2c3d"], as an instance. *)
Lemma handleSubmit_id_witness :
  let e := {| Inv.id := "a1b2c3d"; Inv.date := "2024-04-30";
              Inv.amount := parseFloat "100";
              Inv.ethPrice := parseFloat "3000";
              Inv.ethAmount :=
                Number.div (parseFloat "100") (parseFloat "3000");
              Inv.type := deposit |} in
  let st := {| date := "2024-05-01"; amount := "500"; ethPrice := "3500";
               isLoading := false; type := deposit |} in
  let env := {| Math_random_toString36 := "0.k3j9x2mq7pw";
                toast_throws := false |} in
  notifications (trace (run (handleSubmit env (Some e) st) st))
  = [toast_success "Investment updated"].
Proof.
  intros e st env.
  exact (proj2 (proj2
    (handleSubmit_id env (Some e) st
       {| Inv.id := "a1b2c3d"; Inv.date := "2024-05-01";
          Inv.amount := parseFloat "500";
          Inv.ethPrice := parseFloat "3500";
          Inv.ethAmount := Number.div (parseFloat "500") (parseFloat "3500");
          Inv.type := deposit |}
       eq_refl))).
Defined.

(** C6 as stated fails for an edited investment whose id is the empty
    string: the record handed over carries a new random identifier. *)
Lemma handleSubmit_empty_id_replaced :
  let e := {| Inv.id := ""; Inv.date := "2024-04-30";
              Inv.amount := parseFloat "100";
              Inv.ethPrice := parseFloat "3000";
              Inv.ethAmount :=
                Number.div (parseFloat "100") (parseFloat "3000");
              Inv.type := deposit |} in
  let st := {| date := "2024-05-01"; amount := "500"; ethPrice := "3500";
               isLoading := false; type := deposit |} in
  let env := {| Math_random_toString36 := "0.k3j9x2mq7pw";
                toast_throws := false |} in
  exists i,
    submitted (trace (run (handleSubmit env (Some e) st) st)) = [i]
    /\ Inv.id i = "k3j9x2m"
    /\ Inv.id i <> Inv.id e.
Proof.
  cbv zeta. eexists. split; [vm_compute; reflexivity|].
  split; [reflexivity|discriminate].
Qed.

(** The empty id is one the form itself can produce: when
    [Math.random()] is 0 its text in base 36 is ["0"], of which nothing
    is left from position 2 on. *)
Example randomId_of_zero :
  randomId {| Math_random_toString36 := "0"; toast_throws := false |} = "".
Proof. reflexivity. Qed.

(** C7. PrivateRoute returns the loading placeholder alone while the
    auth state is loading, the redirect to ["/login"] alone when it is
    not loading and there is no user, and its children, as they are,
    when it is not loading and there is a user. *)
Theorem PrivateRoute_cases (User Children : Type) :
  (forall (u : option User) (c : Children),
      Auth.PrivateRoute {| Auth.user := u; Auth.loading := true |} c
      = Auth.div "Loading...")
  /\ (forall c : Children,
        Auth.PrivateRoute
          {| Auth.user := @None User; Auth.loading := false |} c
        = Auth.Navigate "/login")
  /\ (forall (u : User) (c : Children),
        Auth.PrivateRoute {| Auth.user := Some u; Auth.loading := false |} c
        = Auth.render c).
Proof. repeat split. Qed.

(** C8. Every run of fetchEthPrice ends with [isLoading = false],
    whether the price service resolves or rejects and whether or not the
    notification throws.  When the service rejects, the ethPrice field
    keeps its prior value and the notification "Error getting ETH price.
    Enter it manually." is issued exactly once. *)
Theorem fetchEthPrice_cleanup (Number_toString : number -> string)
    (env : Env) (st : State) :
  (forall r : Settled,
      isLoading (state (run (fetchEthPrice Number_toString env r) st))
      = false)
  /\ (forall error : string,
        let w := run (fetchEthPrice Number_toString env (Rejected error)) st in
        ethPrice (state w) = ethPrice st
        /\ notifications (trace w)
           = [toast_error "Error getting ETH price. Enter it manually."]).
Proof.
  split.
  - intros [price|error]; destruct (toast_throws env) eqn:Ht;
      unfold run, fetchEthPrice, fetchEthPrice_begin, fetchEthPrice_resume,
        try_catch_finally, await, toast, setEthPrice, setIsLoading, setState,
        call, bind, ret, throw;
      cbn [fst snd state trace]; rewrite ?Ht; reflexivity.
  - intros error; destruct (toast_throws env) eqn:Ht;
      unfold run, fetchEthPrice, fetchEthPrice_begin, fetchEthPrice_resume,
        try_catch_finally, await, toast, setEthPrice, setIsLoading, setState,
        call, bind, ret, throw;
      cbn [fst snd state trace]; rewrite ?Ht; split; reflexivity.
Qed.

(** C9. After a submit that hands a record over: when no investment is
    being edited the amount field is the empty string, the other fields
    of the form are as before, and one price fetch has been started
    (which sets [isLoading]); when one is being edited the form state is
    unchanged and no fetch has been started. *)
Theorem handleSubmit_reset (env : Env) (ed : option Investment) (st : State)
    (i : Investment) :
  submitted (trace (run (handleSubmit env ed st) st)) = [i] ->
  let w := run (handleSubmit env ed st) st in
  match ed with
  | None =>
      amount (state w) = ""
      /\ date (state w) = date st
      /\ ethPrice (state w) = ethPrice st
      /\ type (state w) = type st
      /\ isLoading (state w) = true
      /\ fetches (trace w) = 1%nat
  | Some _ =>
      state w = st
      /\ fetches (trace w) = 0%nat
  end.
Proof.
  intros H.
  destruct (submitted_passes env ed st i H) as (Hc & Hn & Hz).
  cbv zeta. rewrite (run_accepted env ed st Hc Hn Hz).
  destruct ed; repeat split.
Qed.

(** C9: a create, as an instance. *)
Lemma handleSubmit_reset_witness :
  let st := {| date := "2024-05-01"; amount := "500"; ethPrice := "3500";
               isLoading := false; type := deposit |} in
  let env := {| Math_random_toString36 := "0.k3j9x2mq7pw";
                toast_throws := false |} in
  let w := run (handleSubmit env None st) st in
  amount (state w) = ""
  /\ date (state w) = date st
  /\ ethPrice (state w) = ethPrice st
  /\ type (state w) = type st
  /\ isLoading (state w) = true
  /\ fetches (trace w) = 1%nat.
Proof.
  intros st env.
  exact (handleSubmit_reset env None st
           {| Inv.id := "k3j9x2m"; Inv.date := "2024-05-01";
              Inv.amount := parseFloat "500";
              Inv.ethPrice := parseFloat "3500";
              Inv.ethAmount :=
                Number.div (parseFloat "500") (parseFloat "3500");
              Inv.type := deposit |}
           eq_refl).
Defined.

(** C10, amended. When amount (or ethPrice) is a non-empty string of
    white space only, and the date and the other value are non-empty,
    the only notification is "Please enter valid numeric values" and
    nothing is passed to onAddInvestment. *)
Theorem handleSubmit_whitespace (env : Env) (ed : option Investment)
    (st : State) :
  date st <> "" -> amount st <> "" -> ethPrice st <> "" ->
  Parse.whitespace_only (amount st) = true
  \/ Parse.whitespace_only (ethPrice st) = true ->
  let w := run (handleSubmit env ed st) st in
  notifications (trace w) = [toast_error "Please enter valid numeric values"]
  /\ submitted (trace w) = [].
Proof.
  intros Hd Ha Hp H.
  apply truthy_iff in Hd, Ha, Hp.
  assert (Hc : truthy (date st) && truthy (amount st)
               && truthy (ethPrice st) = true)
    by (rewrite Hd, Ha, Hp; reflexivity).
  assert (Hn : isNaN (parseFloat (amount st))
               || isNaN (parseFloat (ethPrice st)) = true).
  { destruct H as [H|H]; rewrite (parseFloat_whitespace_only _ H);
      [|rewrite orb_true_r]; reflexivity. }
  cbv zeta. rewrite (run_not_numeric env ed st Hc Hn). repeat split.
Qed.

(** C10: amount [" "], as an instance. *)
Lemma handleSubmit_whitespace_witness :
  let st := {| date := "2024-05-01"; amount := " "; ethPrice := "3500";
               isLoading := false; type := deposit |} in
  let w := run (handleSubmit
                  {| Math_random_toString36 := "0.k3j9x2mq7pw";
                     toast_throws := false |} None st) st in
  notifications (trace w) = [toast_error "Please enter valid numeric values"]
  /\ submitted (trace w) = [].
Proof.
  intros st.
  apply (handleSubmit_whitespace
           {| Math_random_toString36 := "0.k3j9x2mq7pw";
              toast_throws := false |} None st);
    try discriminate.
  left. reflexivity.
Defined.

(** C10 as stated fails when another required field is empty: with
    amount [" "] and an empty date the notification is "Please complete
    all fields". *)
Lemma handleSubmit_whitespace_empty_date :
  let st := {| date := ""; amount := " "; ethPrice := "3500";
               isLoading := false; type := deposit |} in
  let w := run (handleSubmit
                  {| Math_random_toString36 := "0.k3j9x2mq7pw";
                     toast_throws := false |} None st) st in
  amount st <> ""
  /\ Parse.whitespace_only (amount st) = true
  /\ notifications (trace w) = [toast_error "Please complete all fields"]
  /\ notifications (trace w)
     <> [toast_error "Please enter valid numeric values"].
Proof.
  cbv zeta. split; [discriminate|]. split; [reflexivity|].
  split; [reflexivity|discriminate].
Qed.


(* ===================================================================== *)
(** ** Further properties of handleSubmit *)
(* ===================================================================== *)

(** A submit either rejects, leaving one error notification and the
    state as it was, or passes the three steps and runs to the end. *)
Lemma handleSubmit_cases (env : Env) (ed : option Investment) (st : State) :
  ((exists m,
       run (handleSubmit env ed st) st
       = {| state := st; trace := [preventDefault; toast_error m] |})
   /\ ~ (date st <> ""
         /\ Number.is_positive (parseFloat (amount st))
         /\ Number.is_positive (parseFloat (ethPrice st))))
  \/ ((date st <> ""
       /\ Number.is_positive (parseFloat (amount st))
       /\ Number.is_positive (parseFloat (ethPrice st)))
      /\ run (handleSubmit env ed st) st
         = {| state :=
                match ed with
                | None => {| date := date st; amount := "";
                             ethPrice := ethPrice st; isLoading := true;
                             type := type st |}
                | Some _ => st
                end;
              trace :=
                [preventDefault;
                 onAddInvestment
                   {| Inv.id :=
                        match ed with
                        | Some e => if truthy (Inv.id e) then Inv.id e
                                    else randomId env
                        | None => randomId env
                        end;
                      Inv.date := date st;
                      Inv.amount :=
                        match type st with
                        | withdrawal => Number.neg (parseFloat (amount st))
                        | deposit => parseFloat (amount st)
                        end;
                      Inv.ethPrice := parseFloat (ethPrice st);
                      Inv.ethAmount :=
                        match type st with
                        | withdrawal =>
                            Number.neg
                              (Number.div (parseFloat (amount st))
                                          (parseFloat (ethPrice st)))
                        | deposit =>
                            Number.div (parseFloat (amount st))
                                       (parseFloat (ethPrice st))
                        end;
                      Inv.type := type st |}]
                ++ match ed with
                   | None => [getEthPrice]
                   | Some _ => []
                   end
                ++ [match ed with
                    | Some _ => toast_success "Investment updated"
                    | None => toast_success "Investment added"
                    end] |}).
Proof.
  destruct (truthy (date st) && truthy (amount st) && truthy (ethPrice st))
    eqn:Hc.
  2:{ left. split; [eexists; apply (run_incomplete env ed st Hc)|].
      intros (Hd & Ha & Hp).
      apply truthy_iff in Hd.
      rewrite Hd, (parseFloat_pos_truthy _ Ha), (parseFloat_pos_truthy _ Hp)
        in Hc.
      discriminate. }
  destruct (isNaN (parseFloat (amount st)) || isNaN (parseFloat (ethPrice st)))
    eqn:Hn.
  { left. split; [eexists; apply (run_not_numeric env ed st Hc Hn)|].
    intros (_ & Ha & Hp).
    rewrite (gtb_zero_not_NaN _ Ha), (gtb_zero_not_NaN _ Hp) in Hn.
    discriminate. }
  destruct (Number.leb (parseFloat (amount st)) Number.zero
            || Number.leb (parseFloat (ethPrice st)) Number.zero) eqn:Hz.
  { left. split; [eexists; apply (run_not_positive env ed st Hc Hn Hz)|].
    intros (_ & Ha & Hp).
    rewrite (gtb_zero_not_leb _ Ha), (gtb_zero_not_leb _ Hp) in Hz.
    discriminate. }
  right. split; [|apply (run_accepted env ed st Hc Hn Hz)].
  apply andb_true_iff in Hc as [Hc _]. apply andb_true_iff in Hc as [Hd _].
  apply orb_false_iff in Hn as [Hna Hnp].
  apply orb_false_iff in Hz as [Hza Hzp].
  rewrite leb_zero_gtb in Hza, Hzp by assumption.
  apply negb_false_iff in Hza, Hzp.
  split; [apply truthy_iff, Hd|]. split; assumption.
Qed.

(** X1. A submit hands a record to onAddInvestment exactly when the
    date is not empty and amount and ethPrice both parse to a number
    above zero; it never hands over more than one. *)
Theorem handleSubmit_accepts_iff (env : Env) (ed : option Investment)
    (st : State) :
  ((exists i, submitted (trace (run (handleSubmit env ed st) st)) = [i])
   <-> (date st <> ""
        /\ Number.is_positive (parseFloat (amount st))
        /\ Number.is_positive (parseFloat (ethPrice st))))
  /\ (List.length (submitted (trace (run (handleSubmit env ed st) st)))
      <= 1)%nat.
Proof.
  destruct (handleSubmit_cases env ed st) as [[[m Hw] Hno]|[Hyes Hw]];
    rewrite Hw.
  - split; [|cbn; lia].
    split; [intros [i Hi]; discriminate|contradiction].
  - split; [|destruct ed; cbn; lia].
    split; [trivial|]. intros _. destruct ed; eexists; reflexivity.
Qed.

(** X2. Every submit starts with preventDefault and shows exactly one
    notification: a success notification when a record is handed over,
    an error notification when none is. *)
Theorem handleSubmit_one_notification (env : Env) (ed : option Investment)
    (st : State) :
  let w := run (handleSubmit env ed st) st in
  List.hd_error (trace w) = Some preventDefault
  /\ ((exists m, notifications (trace w) = [toast_success m]
                 /\ List.length (submitted (trace w)) = 1%nat)
      \/ (exists m, notifications (trace w) = [toast_error m]
                    /\ submitted (trace w) = [])).
Proof.
  cbv zeta.
  destruct (handleSubmit_cases env ed st) as [[[m Hw] Hno]|[Hyes Hw]];
    rewrite Hw; (split; [reflexivity|]).
  - right. exists m. split; reflexivity.
  - left. destruct ed; eexists; split; reflexivity.
Qed.

(** X3. A submit that hands no record over leaves the form state as it
    was and starts no price fetch, whichever of the three checks made
    it fail. *)
Theorem handleSubmit_rejected_frame (env : Env) (ed : option Investment)
    (st : State) :
  submitted (trace (run (handleSubmit env ed st) st)) = [] ->
  state (run (handleSubmit env ed st) st) = st
  /\ fetches (trace (run (handleSubmit env ed st) st)) = 0%nat.
Proof.
  destruct (handleSubmit_cases env ed st) as [[[m Hw] Hno]|[Hyes Hw]];
    rewrite Hw.
  - intros _. split; reflexivity.
  - destruct ed; discriminate.
Qed.

(** X3: a price of zero, as an instance. *)
Lemma handleSubmit_rejected_frame_witness :
  let st := {| date := "2024-05-01"; amount := "500"; ethPrice := "0";
               isLoading := false; type := deposit |} in
  let env := {| Math_random_toString36 := "0.k3j9x2mq7pw";
                toast_throws := false |} in
  state (run (handleSubmit env None st) st) = st
  /\ fetches (trace (run (handleSubmit env None st) st)) = 0%nat.
Proof.
  intros st env. apply (handleSubmit_rejected_frame env None st).
  reflexivity.
Defined.

(** X4. No submit changes the date, the ethPrice text or the type of
    the form; the amount text is kept or emptied, and [isLoading] is
    kept or raised. *)
Theorem handleSubmit_frame (env : Env) (ed : option Investment)
    (st : State) :
  let st' := state (run (handleSubmit env ed st) st) in
  date st' = date st
  /\ ethPrice st' = ethPrice st
  /\ type st' = type st
  /\ (amount st' = amount st \/ amount st' = "")
  /\ (isLoading st' = isLoading st \/ isLoading st' = true).
Proof.
  cbv zeta.
  destruct (handleSubmit_cases env ed st) as [[[m Hw] Hno]|[Hyes Hw]];
    rewrite Hw; [|destruct ed]; cbn; auto 6.
Qed.

(** X5. The type of the entry only sets the signs: for the same date,
    amount and ethPrice texts, either both a deposit and a withdrawal
    are rejected, or both hand a record over, and the record of the
    withdrawal is that of the deposit with [amount] and [ethAmount]
    negated and the type changed. *)
Theorem handleSubmit_type_symmetry (env : Env) (ed : option Investment)
    (d am ep : string) (il : bool) :
  let st_d := {| date := d; amount := am; ethPrice := ep; isLoading := il;
                 type := deposit |} in
  let st_w := {| date := d; amount := am; ethPrice := ep; isLoading := il;
                 type := withdrawal |} in
  (submitted (trace (run (handleSubmit env ed st_d) st_d)) = []
   /\ submitted (trace (run (handleSubmit env ed st_w) st_w)) = [])
  \/ (exists i,
        submitted (trace (run (handleSubmit env ed st_d) st_d)) = [i]
        /\ submitted (trace (run (handleSubmit env ed st_w) st_w))
           = [{| Inv.id := Inv.id i;
                 Inv.date := Inv.date i;
                 Inv.amount := Number.neg (Inv.amount i);
                 Inv.ethPrice := Inv.ethPrice i;
                 Inv.ethAmount := Number.neg (Inv.ethAmount i);
                 Inv.type := withdrawal |}]).
Proof.
  intros st_d st_w.
  destruct (handleSubmit_cases env ed st_d) as [[[m Hd] Hno]|[Hyes Hd]];
    destruct (handleSubmit_cases env ed st_w) as [[[m' Hw] Hno']|[Hyes' Hw]];
    try contradiction.
  - left. rewrite Hd, Hw. split; reflexivity.
  - right. rewrite Hd, Hw. destruct ed; eexists; split; reflexivity.
Qed.

(** X6. A notification that throws changes nothing of what a submit
    does: the calls made and the state written are those of a submit
    whose notification returns.  The handler itself then completes
    abruptly, and only then. *)
Theorem handleSubmit_toast_throws (r : string) (b : bool)
    (ed : option Investment) (st : State) :
  run (handleSubmit {| Math_random_toString36 := r; toast_throws := b |}
                    ed st) st
  = run (handleSubmit {| Math_random_toString36 := r; toast_throws := false |}
                      ed st) st
  /\ fst (handleSubmit {| Math_random_toString36 := r; toast_throws := b |}
                       ed st {| state := st; trace := [] |})
     = if b then Throw "toast" else Normal tt.
Proof.
  exec.
  destruct (negb (truthy (date st)) || negb (truthy (amount st))
            || negb (truthy (ethPrice st)));
    [destruct b; split; reflexivity|].
  destruct (isNaN (parseFloat (amount st))
            || isNaN (parseFloat (ethPrice st)));
    [destruct b; split; reflexivity|].
  destruct (Number.leb (parseFloat (amount st)) Number.zero
            || Number.leb (parseFloat (ethPrice st)) Number.zero);
    [destruct b; split; reflexivity|].
  destruct (type st), ed, b; split; reflexivity.
Qed.

(** [substring n m] keeps [m] characters, or what is left from
    position [n] on. *)
Lemma substring_length (n m : nat) (s : string) :
  String.length (substring n m s) = Nat.min m (String.length s - n).
Proof.
  revert n m. induction s as [|c s IH]; intros [|n] [|m]; simpl;
    try reflexivity.
  - rewrite IH. rewrite Nat.sub_0_r. reflexivity.
  - apply IH.
  - apply IH.
Qed.

(** X7. The identifier made for a new record has at most 7 characters:
    as many as [Math.random().toString(36)] has from position 2 on, up
    to 7. *)
Theorem randomId_length (env : Env) :
  String.length (randomId env)
  = Nat.min 7 (String.length (Math_random_toString36 env) - 2).
Proof. apply substring_length. Qed.

(** Leading white space is not part of what [parseFloat] reads. *)
Lemma trimStart_app (ws s : string) :
  Parse.whitespace_only ws = true ->
  Parse.trimStart (ws ++ s) = Parse.trimStart s.
Proof.
  induction ws as [|c ws IH]; simpl; intros H; [reflexivity|].
  apply andb_true_iff in H as [Hc Hs]. rewrite Hc. apply IH, Hs.
Qed.

Lemma parseFloat_leading_whitespace (ws s : string) :
  Parse.whitespace_only ws = true ->
  parseFloat (ws ++ s) = parseFloat s.
Proof.
  intros H. unfold parseFloat. rewrite (trimStart_app ws s H). reflexivity.
Qed.

Lemma truthy_app_r (ws s : string) : s <> "" -> truthy (ws ++ s) = true.
Proof.
  intros H. apply truthy_iff. destruct ws; simpl; [exact H|discriminate].
Qed.

(** X8. White space in front of a non-empty amount or ethPrice text
    does not count: the submit makes the same calls, with the same
    record and the same notification, as without it. *)
Theorem handleSubmit_leading_whitespace (env : Env)
    (ed : option Investment) (d am ep : string) (il : bool)
    (ty : InvestmentType) (wa wp : string) :
  Parse.whitespace_only wa = true ->
  Parse.whitespace_only wp = true ->
  am <> "" -> ep <> "" ->
  let st := {| date := d; amount := am; ethPrice := ep; isLoading := il;
               type := ty |} in
  let st' := {| date := d; amount := wa ++ am; ethPrice := wp ++ ep;
                isLoading := il; type := ty |} in
  trace (run (handleSubmit env ed st') st')
  = trace (run (handleSubmit env ed st) st).
Proof.
  intros Hwa Hwp Ham Hep st st'. subst st st'. exec.
  cbn [date amount ethPrice type].
  rewrite (parseFloat_leading_whitespace wa am Hwa),
    (parseFloat_leading_whitespace wp ep Hwp),
    (truthy_app_r wa am Ham), (truthy_app_r wp ep Hep).
  apply truthy_iff in Ham, Hep. rewrite Ham, Hep.
  destruct (truthy d); cbn [negb orb];
    [|destruct (toast_throws env); reflexivity].
  destruct (isNaN (parseFloat am) || isNaN (parseFloat ep));
    [destruct (toast_throws env); reflexivity|].
  destruct (Number.leb (parseFloat am) Number.zero
            || Number.leb (parseFloat ep) Number.zero);
    [destruct (toast_throws env); reflexivity|].
  destruct ty, ed, (toast_throws env); reflexivity.
Qed.

(** X8: two blanks before ["500"] and a tab before ["3500"], as an
    instance. *)
Lemma handleSubmit_leading_whitespace_witness :
  let env := {| Math_random_toString36 := "0.k3j9x2mq7pw";
                toast_throws := false |} in
  let st := {| date := "2024-05-01"; amount := "500"; ethPrice := "3500";
               isLoading := false; type := deposit |} in
  let st' := {| date := "2024-05-01"; amount := "  500";
                ethPrice := String (ascii_of_nat 9) "3500";
                isLoading := false; type := deposit |} in
  trace (run (handleSubmit env None st') st')
  = trace (run (handleSubmit env None st) st).
Proof.
  intros env st st'.
  apply (handleSubmit_leading_whitespace env None "2024-05-01" "500" "3500"
           false deposit "  " (String (ascii_of_nat 9) ""));
    try reflexivity; discriminate.
Defined.


(* ===================================================================== *)
(** ** Further properties of fetchEthPrice *)
(* ===================================================================== *)

(** What the continuation of [fetchEthPrice] does to the world it finds
    when the promise has settled. *)
Lemma resume_resolved (Number_toString : number -> string) (env : Env)
    (price : number) (w : World) :
  fetchEthPrice_resume Number_toString env (Resolved price) w
  = (Normal tt,
     {| state := {| date := date (state w); amount := amount (state w);
                    ethPrice := Number_toString price; isLoading := false;
                    type := type (state w) |};
        trace := trace w |}).
Proof. reflexivity. Qed.

Lemma resume_rejected (Number_toString : number -> string) (env : Env)
    (error : string) (w : World) :
  fetchEthPrice_resume Number_toString env (Rejected error) w
  = (if toast_throws env then Throw "toast" else Normal tt,
     {| state := {| date := date (state w); amount := amount (state w);
                    ethPrice := ethPrice (state w); isLoading := false;
                    type := type (state w) |};
        trace := trace w
                 ++ [console_error "Error fetching ETH price:" error]
                 ++ [toast_error
                       "Error getting ETH price. Enter it manually."] |}).
Proof.
  unfold fetchEthPrice_resume, try_catch_finally, await, toast, setIsLoading,
    setState, call, bind, ret, throw.
  cbn [fst snd state trace].
  destruct (toast_throws env); cbn [fst snd state trace];
    rewrite <- app_assoc; reflexivity.
Qed.

(** X9. When the price service resolves with [price], a run of
    fetchEthPrice writes the text of [price] to the ethPrice field,
    ends with [isLoading = false], issues one request, shows no
    notification, logs nothing, and returns normally whatever [toast]
    would do. *)
Theorem fetchEthPrice_resolved (Number_toString : number -> string)
    (env : Env) (price : number) (st : State) :
  fetchEthPrice Number_toString env (Resolved price)
                {| state := st; trace := [] |}
  = (Normal tt,
     {| state := {| date := date st; amount := amount st;
                    ethPrice := Number_toString price; isLoading := false;
                    type := type st |};
        trace := [getEthPrice] |}).
Proof. reflexivity. Qed.

(** X10. However the price service settles, a run of fetchEthPrice
    leaves the date, the amount and the type of the form alone, hands
    nothing to onAddInvestment and issues exactly one request; it
    completes abruptly only when the service rejects and the
    notification throws. *)
Theorem fetchEthPrice_frame (Number_toString : number -> string)
    (env : Env) (r : Settled) (st : State) :
  let w := run (fetchEthPrice Number_toString env r) st in
  date (state w) = date st
  /\ amount (state w) = amount st
  /\ type (state w) = type st
  /\ submitted (trace w) = []
  /\ fetches (trace w) = 1%nat
  /\ fst (fetchEthPrice Number_toString env r {| state := st; trace := [] |})
     = match r with
       | Resolved _ => Normal tt
       | Rejected _ => if toast_throws env then Throw "toast" else Normal tt
       end.
Proof.
  cbv zeta. unfold run, fetchEthPrice, bind.
  cbn [fetchEthPrice_begin setIsLoading setState call bind fst snd].
  unfold fetchEthPrice_begin, setIsLoading, setState, call, bind.
  cbn [fst snd state trace app].
  destruct r as [price|error].
  - rewrite resume_resolved. repeat split.
  - rewrite resume_rejected. repeat split.
Qed.

(** X11. The continuation of fetchEthPrice does not look at the form it
    finds: in whatever state the form is when the promise settles
    (typed into since the request, or not), a resolved price replaces
    the ethPrice text, a rejection keeps the text as it finds it, and
    in both cases [isLoading] becomes false and date, amount and type
    stay as found. *)
Theorem fetchEthPrice_resume_overwrites (Number_toString : number -> string)
    (env : Env) (r : Settled) (w : World) :
  let w' := after (fetchEthPrice_resume Number_toString env r) w in
  ethPrice (state w')
  = match r with
    | Resolved price => Number_toString price
    | Rejected _ => ethPrice (state w)
    end
  /\ isLoading (state w') = false
  /\ date (state w') = date (state w)
  /\ amount (state w') = amount (state w)
  /\ type (state w') = type (state w)
  /\ submitted (trace w') = submitted (trace w).
Proof.
  cbv zeta. unfold after. destruct r as [price|error].
  - rewrite resume_resolved. repeat split.
  - rewrite resume_rejected. cbn [snd state trace ethPrice isLoading date
                                    amount type].
    repeat split.
    induction (trace w) as [|ev t IH]; [reflexivity|].
    destruct ev; cbn [app submitted]; rewrite <- ?IH; reflexivity.
Qed.

(** X12. Two requests in flight: they are not counted.  When the first
    one settles [isLoading] is false although the second is still
    pending, and the ethPrice text at the end is that of the last
    request to resolve, or the original text when both reject. *)
Theorem fetchEthPrice_overlap (Number_toString : number -> string)
    (env : Env) (r1 r2 : Settled) (st : State) :
  let w2 := after fetchEthPrice_begin
              (after fetchEthPrice_begin {| state := st; trace := [] |}) in
  let w3 := after (fetchEthPrice_resume Number_toString env r1) w2 in
  let w4 := after (fetchEthPrice_resume Number_toString env r2) w3 in
  fetches (trace w2) = 2%nat
  /\ isLoading (state w2) = true
  /\ isLoading (state w3) = false
  /\ ethPrice (state w4)
     = match r2, r1 with
       | Resolved p2, _ => Number_toString p2
       | Rejected _, Resolved p1 => Number_toString p1
       | Rejected _, Rejected _ => ethPrice st
       end.
Proof.
  cbv zeta. unfold after.
  destruct r1 as [p1|e1], r2 as [p2|e2];
    rewrite ?resume_resolved, ?resume_rejected;
    cbn [snd state]; rewrite ?resume_resolved, ?resume_rejected;
    repeat split.
Qed.

(* ===================================================================== *)
(** ** One submit after another *)
(* ===================================================================== *)

(** X13. After a create has handed its record over, the form cannot be
    submitted again as it stands: a second submit, before or after the
    price fetch that the first one started has settled, hands nothing
    over and shows "Please complete all fields". *)
Theorem handleSubmit_twice_create (Number_toString : number -> string)
    (env env' : Env) (ed' : option Investment) (st : State)
    (i : Investment) (r : Settled) :
  submitted (trace (run (handleSubmit env None st) st)) = [i] ->
  let w1 := run (handleSubmit env None st) st in
  let w2 := after (fetchEthPrice_resume Number_toString env r) w1 in
  (submitted (trace (run (handleSubmit env' ed' (state w1)) (state w1))) = []
   /\ notifications (trace (run (handleSubmit env' ed' (state w1)) (state w1)))
      = [toast_error "Please complete all fields"])
  /\ (submitted (trace (run (handleSubmit env' ed' (state w2)) (state w2)))
      = []
      /\ notifications
           (trace (run (handleSubmit env' ed' (state w2)) (state w2)))
         = [toast_error "Please complete all fields"]).
Proof.
  intros H w1 w2.
  assert (H1 : amount (state w1) = "").
  { subst w1.
    destruct (submitted_passes env None st i H) as (Hc & Hn & Hz).
    rewrite (run_accepted env None st Hc Hn Hz). reflexivity. }
  assert (H2 : amount (state w2) = "").
  { subst w2. unfold after. destruct r as [price|error];
      rewrite ?resume_resolved, ?resume_rejected; exact H1. }
  assert (E : forall s, amount s = "" ->
                truthy (date s) && truthy (amount s) && truthy (ethPrice s)
                = false).
  { intros s Hs. rewrite Hs. cbn. rewrite andb_false_r. reflexivity. }
  split.
  - rewrite (run_incomplete env' ed' (state w1) (E _ H1)). split; reflexivity.
  - rewrite (run_incomplete env' ed' (state w2) (E _ H2)). split; reflexivity.
Qed.

(** X13: two submits of 500 USD at 3500, as an instance. *)
Lemma handleSubmit_twice_create_witness :
  let env := {| Math_random_toString36 := "0.k3j9x2mq7pw";
                toast_throws := false |} in
  let st := {| date := "2024-05-01"; amount := "500"; ethPrice := "3500";
               isLoading := false; type := deposit |} in
  let w1 := run (handleSubmit env None st) st in
  submitted (trace (run (handleSubmit env None (state w1)) (state w1))) = [].
Proof.
  intros env st w1.
  exact (proj1 (proj1
    (handleSubmit_twice_create (fun _ => "3600") env env None st
       {| Inv.id := "k3j9x2m"; Inv.date := "2024-05-01";
          Inv.amount := parseFloat "500";
          Inv.ethPrice := parseFloat "3500";
          Inv.ethAmount := Number.div (parseFloat "500") (parseFloat "3500");
          Inv.type := deposit |}
       (Resolved (parseFloat "3600")) eq_refl))).
Defined.

(** X14. An edit can be submitted again: it leaves the form as it was,
    and a second submit hands over a record with the same date, amount,
    ethPrice, ethAmount and type, and the same id when the edited
    investment has a non-empty one. *)
Theorem handleSubmit_twice_edit (env env' : Env) (e : Investment)
    (st : State) (i : Investment) :
  submitted (trace (run (handleSubmit env (Some e) st) st)) = [i] ->
  let st' := state (run (handleSubmit env (Some e) st) st) in
  exists i',
    submitted (trace (run (handleSubmit env' (Some e) st') st')) = [i']
    /\ Inv.date i' = Inv.date i
    /\ Inv.amount i' = Inv.amount i
    /\ Inv.ethPrice i' = Inv.ethPrice i
    /\ Inv.ethAmount i' = Inv.ethAmount i
    /\ Inv.type i' = Inv.type i
    /\ (Inv.id e <> "" -> i' = i).
Proof.
  intros H.
  destruct (submitted_passes env (Some e) st i H) as (Hc & Hn & Hz).
  cbv zeta. rewrite (run_accepted env (Some e) st Hc Hn Hz) in *.
  cbn [state]. rewrite (run_accepted env' (Some e) st Hc Hn Hz).
  cbn [trace app submitted] in *. injection H as <-.
  eexists. split; [reflexivity|]. cbn. repeat split.
  intros He. apply truthy_iff in He. rewrite He. reflexivity.
Qed.

(** X14: an edit submitted twice, as an instance. *)
Lemma handleSubmit_twice_edit_witness :
  let e := {| Inv.id := "a1b2c3d"; Inv.date := "2024-04-30";
              Inv.amount := parseFloat "100";
              Inv.ethPrice := parseFloat "3000";
              Inv.ethAmount :=
                Number.div (parseFloat "100") (parseFloat "3000");
              Inv.type := deposit |} in
  let st := {| date := "2024-05-01"; amount := "500"; ethPrice := "3500";
               isLoading := false; type := deposit |} in
  let env := {| Math_random_toString36 := "0.k3j9x2mq7pw";
                toast_throws := false |} in
  let env' := {| Math_random_toString36 := "0.zzzzzzzzzzz";
                 toast_throws := false |} in
  let st' := state (run (handleSubmit env (Some e) st) st) in
  exists i',
    submitted (trace (run (handleSubmit env' (Some e) st') st')) = [i']
    /\ Inv.amount i' = parseFloat "500".
Proof.
  intros e st env env' st'.
  destruct (handleSubmit_twice_edit env env' e st
              {| Inv.id := "a1b2c3d"; Inv.date := "2024-05-01";
                 Inv.amount := parseFloat "500";
                 Inv.ethPrice := parseFloat "3500";
                 Inv.ethAmount :=
                   Number.div (parseFloat "500") (parseFloat "3500");
                 Inv.type := deposit |}
              eq_refl)
    as (i' & Hi & _ & Ha & _).
  exists i'. split; [exact Hi|exact Ha].
Defined.

(* ===================================================================== *)
(** ** Further properties of PrivateRoute *)
(* ===================================================================== *)

(** X15. PrivateRoute shows children only to a user: what it returns is
    its children exactly when the auth state is not loading and has a
    user, and then the children are its own; it returns a redirect
    exactly when the auth state is not loading and has no user, and
    then to ["/login"]. *)
Theorem PrivateRoute_protects (User Children : Type)
    (auth : Auth.AuthState User) (c : Children) :
  (forall c' : Children,
      Auth.PrivateRoute auth c = Auth.render c'
      <-> (Auth.loading auth = false /\ Auth.user auth <> None /\ c' = c))
  /\ (forall to : string,
        Auth.PrivateRoute auth c = Auth.Navigate to
        <-> (Auth.loading auth = false /\ Auth.user auth = None
             /\ to = "/login")).
Proof.
  destruct auth as [[u|] []]; unfold Auth.PrivateRoute; cbn;
    split; intros x; split;
    try (intros (H1 & H2 & H3)); try (intros H);
    try discriminate; try congruence; subst;
    try (injection H as <-); repeat split; try congruence.
Qed.

(* ===================================================================== *)
(** ** The effect on editingInvestment *)
(* ===================================================================== *)


(** X16. The effect asks for the price only when no investment is being
    edited: then it starts one fetch and leaves the fields alone.  When
    one is being edited it calls no collaborator at all and leaves
    [isLoading] alone, whether or not the date of the investment can be
    converted. *)
Theorem useEffect_fetches_only_on_create
    (Number_toString : number -> string)
    (Date_toISOString : string -> option string)
    (ed : option Investment) (st : State) :
  let w := run (useEffect Number_toString Date_toISOString ed) st in
  match ed with
  | None =>
      trace w = [getEthPrice]
      /\ state w = {| date := date st; amount := amount st;
                      ethPrice := ethPrice st; isLoading := true;
                      type := type st |}
  | Some _ =>
      trace w = [] /\ isLoading (state w) = isLoading st
  end.
Proof.
  cbv zeta. destruct ed as [e|]; [|split; reflexivity].
  unfold run, useEffect, toISOString, setDate, setAmount, setEthPrice,
    setType, setState, bind, ret, throw.
  destruct (Date_toISOString (Inv.date e)); split; reflexivity.
Qed.

(** X17. When the date of the edited investment denotes no date, the
    effect throws before it has written anything: the form keeps the
    date, amount, ethPrice and type it had, not those of the
    investment. *)
Theorem useEffect_invalid_date (Number_toString : number -> string)
    (Date_toISOString : string -> option string) (e : Investment)
    (st : State) :
  Date_toISOString (Inv.date e) = None ->
  useEffect Number_toString Date_toISOString (Some e)
            {| state := st; trace := [] |}
  = (Throw "RangeError: Invalid time value", {| state := st; trace := [] |}).
Proof.
  intros H. unfold useEffect, toISOString, bind, throw. rewrite H.
  reflexivity.
Qed.

(** X17: a conversion that accepts no text, as an instance. *)
Lemma useEffect_invalid_date_witness :
  let e := {| Inv.id := "a1b2c3d"; Inv.date := "soon";
              Inv.amount := parseFloat "100";
              Inv.ethPrice := parseFloat "3000";
              Inv.ethAmount :=
                Number.div (parseFloat "100") (parseFloat "3000");
              Inv.type := withdrawal |} in
  let st := {| date := "2024-05-01"; amount := "500"; ethPrice := "3500";
               isLoading := false; type := deposit |} in
  useEffect (fun _ => "100") (fun _ => None) (Some e)
            {| state := st; trace := [] |}
  = (Throw "RangeError: Invalid time value", {| state := st; trace := [] |}).
Proof.
  intros e st.
  exact (useEffect_invalid_date (fun _ => "100") (fun _ => None) e st
           eq_refl).
Defined.






(* ===================================================================== *)
(** ** What the validation lets through *)
(* ===================================================================== *)

(** A run of digits is read up to the text that ends it. *)
Lemma decimalDigits_digits_app (ds t : string) :
  Parse.digits_only ds = true ->
  Parse.ends_literal t = true ->
  exists l,
    Parse.decimalDigits (ds ++ t) = (l, t)
    /\ Parse.decimalDigits ds = (l, "").
Proof.
  intros Hd Ht. induction ds as [|c ds IH]; simpl in *.
  - exists []. split; [|reflexivity].
    destruct t as [|c' t']; [reflexivity|]. simpl in *.
    destruct (Parse.digit c'); [discriminate|reflexivity].
  - destruct (Parse.digit c) as [d|]; [|discriminate].
    destruct (IH Hd) as (l & E1 & E2). rewrite E1, E2.
    exists (d :: l). split; reflexivity.
Qed.

Lemma no_fraction (t : string) :
  Parse.ends_literal t = true ->
  match t with
  | String "." r => Parse.decimalDigits r
  | _ => ([], t)
  end = ([], t).
Proof.
  destruct t as [|c r]; [reflexivity|].
  destruct c as [[] [] [] [] [] [] [] []]; intros H; try reflexivity.
  discriminate.
Qed.

Lemma no_exponent (t : string) :
  Parse.ends_literal t = true -> Parse.exponentPart t = 0.
Proof.
  destruct t as [|c r]; [reflexivity|]. unfold Parse.ends_literal.
  destruct (Parse.digit c); [discriminate|]. intros H.
  apply negb_true_iff in H. apply orb_false_iff in H as [H H3].
  apply orb_false_iff in H as [_ H2].
  unfold Parse.exponentPart. rewrite H2, H3. reflexivity.
Qed.

(** [parseFloat] reads a run of digits and ignores the text that
    follows, when that text cannot extend the literal. *)
Lemma parseFloat_digits_app (ds t : string) :
  ds <> "" ->
  Parse.digits_only ds = true ->
  Parse.ends_literal t = true ->
  parseFloat (ds ++ t) = parseFloat ds.
Proof.
  intros Hne Hd Ht. destruct ds as [|c ds]; [contradiction|].
  cbn [Parse.digits_only] in Hd.
  destruct (Parse.digit c) as [d|] eqn:Hc; [|discriminate].
  destruct (decimalDigits_digits_app ds t Hd Ht) as (l & E1 & E2).
  pose proof (no_fraction t Ht) as Hf.
  pose proof (no_exponent t Ht) as He.
  unfold parseFloat.
  destruct c as [[] [] [] [] [] [] [] []]; try discriminate Hc;
    cbn [append Parse.trimStart Parse.isStrWhiteSpaceChar N_of_ascii
         N_of_digits N.add N.mul N.leb N.eqb N.compare Pos.compare
         Pos.compare_cont Pos.eqb Pos.add Pos.mul Pos.succ andb orb];
    unfold Parse.strDecimalLiteral, Parse.strUnsignedDecimalLiteral;
    cbn [prefix ascii_dec ascii_rec ascii_rect Bool.bool_dec bool_rec
         bool_rect sumbool_rec sumbool_rect Parse.decimalDigits];
    rewrite Hc, E1, E2, Hf, He; reflexivity.
Qed.

(** The calls of a submit depend on the date, on whether the amount and
    ethPrice texts are empty, on the numbers they parse to, and on the
    type; on nothing else of the form. *)
Lemma handleSubmit_trace_ext (env : Env) (ed : option Investment)
    (st st' : State) :
  date st' = date st ->
  truthy (amount st') = truthy (amount st) ->
  truthy (ethPrice st') = truthy (ethPrice st) ->
  parseFloat (amount st') = parseFloat (amount st) ->
  parseFloat (ethPrice st') = parseFloat (ethPrice st) ->
  type st' = type st ->
  trace (run (handleSubmit env ed st') st')
  = trace (run (handleSubmit env ed st) st).
Proof.
  intros Hd Hta Htp Ha Hp Hty. exec. rewrite Hd, Hta, Htp, Ha, Hp, Hty.
  destruct (negb (truthy (date st)) || negb (truthy (amount st))
            || negb (truthy (ethPrice st)));
    [destruct (toast_throws env); reflexivity|].
  destruct (isNaN (parseFloat (amount st))
            || isNaN (parseFloat (ethPrice st)));
    [destruct (toast_throws env); reflexivity|].
  destruct (Number.leb (parseFloat (amount st)) Number.zero
            || Number.leb (parseFloat (ethPrice st)) Number.zero);
    [destruct (toast_throws env); reflexivity|].
  destruct (type st), ed, (toast_throws env); reflexivity.
Qed.

(** X19. Text after the digits does not count either.  When the amount
    and the ethPrice each start with a run of digits and go on with
    text that cannot continue the number (not a digit, ["."], ["e"] or
    ["E"]), the submit makes the same calls, with the same record, as
    for the runs of digits alone: what follows is never rejected. *)
Theorem handleSubmit_trailing_text (env : Env) (ed : option Investment)
    (d : string) (il : bool) (ty : InvestmentType)
    (am ta ep tp : string) :
  am <> "" -> Parse.digits_only am = true -> Parse.ends_literal ta = true ->
  ep <> "" -> Parse.digits_only ep = true -> Parse.ends_literal tp = true ->
  let st := {| date := d; amount := am; ethPrice := ep; isLoading := il;
               type := ty |} in
  let st' := {| date := d; amount := am ++ ta; ethPrice := ep ++ tp;
                isLoading := il; type := ty |} in
  trace (run (handleSubmit env ed st') st')
  = trace (run (handleSubmit env ed st) st).
Proof.
  intros Ha Hda Hta Hp Hdp Htp st st'.
  assert (T : forall x y : string, x <> "" -> truthy (x ++ y) = truthy x).
  { intros [|c x] y Hx; [contradiction|reflexivity]. }
  apply handleSubmit_trace_ext; cbn [st st' date amount ethPrice type];
    auto using parseFloat_digits_app.
Qed.

(** X19: ["500 USD"] at ["3500usd"], as an instance. *)
Lemma handleSubmit_trailing_text_witness :
  let env := {| Math_random_toString36 := "0.k3j9x2mq7pw";
                toast_throws := false |} in
  let st := {| date := "2024-05-01"; amount := "500"; ethPrice := "3500";
               isLoading := false; type := deposit |} in
  let st' := {| date := "2024-05-01"; amount := "500 USD";
                ethPrice := "3500usd"; isLoading := false;
                type := deposit |} in
  trace (run (handleSubmit env None st') st')
  = trace (run (handleSubmit env None st) st).
Proof.
  intros env st st'.
  apply (handleSubmit_trailing_text env None "2024-05-01" false deposit
           "500" " USD" "3500" "usd");
    try reflexivity; discriminate.
Defined.

(** X20. A submit does not look at [isLoading]: it makes the same calls
    while a price fetch is in flight as when none is. *)
Theorem handleSubmit_ignores_isLoading (env : Env)
    (ed : option Investment) (st : State) (b : bool) :
  let st' := {| date := date st; amount := amount st;
                ethPrice := ethPrice st; isLoading := b;
                type := type st |} in
  trace (run (handleSubmit env ed st') st')
  = trace (run (handleSubmit env ed st) st).
Proof.
  intros st'. apply handleSubmit_trace_ext; reflexivity.
Qed.
